(** * Obsidian P4: command bridge, path translation, edit guard and blame cache

    A shallow embedding of the TypeScript sources of the plugin: the
    class [P4Manager] ([src/p4Manager.ts]), the plugin core, class
    [ObsidianP4] (found in [src/blame/blameGutter.ts]), and the blame
    provider, class [P4BlameProvider] (found in [src/constants.ts]),
    together with the properties the specification states about them.

    Conventions of the embedding.
    - A JavaScript string is a [string]: a sequence of code units, each
      below 256 (the Latin-1 range).  Case mapping, white space and line
      terminators are the ECMAScript ones restricted to that range.
    - A JavaScript number that holds an integer is a [Z].
    - [undefined] / [null] / a missing object field is [None].
    - An [async] method is a state transformer over the plugin state; a
      thrown [Error] is the [Err] result carrying the error's message. *)

From Stdlib Require Import ZArith Lia Bool Ascii String.
From stdpp Require Import base option list gmap strings pretty.

Local Open Scope string_scope.
Local Open Scope list_scope.

(** ** JavaScript strings *)

Module JS.

(** [x || y] on strings: the empty string is falsy. *)
Definition truthy (s : string) : bool := negb (String.eqb s "").

Definition or_else (o : option string) (d : string) : string :=
  match o with
  | Some s => if truthy s then s else d
  | None => d
  end.

(** A field used as a condition: [undefined] and [""] are falsy. *)
Definition truthy_opt (o : option string) : bool :=
  match o with
  | Some s => truthy s
  | None => false
  end.

(** White space of [\s] and of [String.prototype.trim]: TAB, LF, VT, FF,
    CR, SPACE and NBSP. *)
Definition is_space (a : ascii) : bool :=
  let n := N_of_ascii a in
  ((9 <=? n) && (n <=? 13) || (n =? 32) || (n =? 160))%N.

Definition is_digit (a : ascii) : bool :=
  let n := N_of_ascii a in ((48 <=? n) && (n <=? 57))%N.

(** Line terminators (excluded by [.]): LF and CR. *)
Definition is_newline (a : ascii) : bool :=
  let n := N_of_ascii a in ((n =? 10) || (n =? 13))%N.

(** Upper-case letters that have a lower-case partner: A-Z, and the
    Latin-1 letters U+00C0..U+00DE except the multiplication sign. *)
Definition is_upper (a : ascii) : bool :=
  let n := N_of_ascii a in
  ((65 <=? n) && (n <=? 90) || (192 <=? n) && (n <=? 214)
   || (216 <=? n) && (n <=? 222))%N.

Definition lower_char (a : ascii) : ascii :=
  if is_upper a then ascii_of_N (N_of_ascii a + 32) else a.

Fixpoint map_chars (f : ascii -> ascii) (s : string) : string :=
  match s with
  | EmptyString => EmptyString
  | String a s' => String (f a) (map_chars f s')
  end.

(** [s.toLowerCase()] *)
Definition toLowerCase (s : string) : string := map_chars lower_char s.

Definition backslash : ascii := ascii_of_N 92.
Definition slash : ascii := "/"%char.
Definition LF : ascii := ascii_of_N 10.
Definition CR : ascii := ascii_of_N 13.
Definition NBSP : ascii := ascii_of_N 160.

Definition unbackslash_char (a : ascii) : ascii :=
  if Ascii.eqb a backslash then slash else a.

(** [s.replace(/\\/g, "/")] *)
Definition unbackslash (s : string) : string :=
  map_chars unbackslash_char s.

Fixpoint remove_char (c : ascii) (s : string) : string :=
  match s with
  | EmptyString => EmptyString
  | String a s' =>
      if Ascii.eqb a c then remove_char c s' else String a (remove_char c s')
  end.

(** [s.startsWith(p)] *)
Definition startsWith (s p : string) : bool := String.prefix p s.

Fixpoint drop (n : nat) (s : string) : string :=
  match n, s with
  | O, _ => s
  | S n', String _ s' => drop n' s'
  | S _, EmptyString => EmptyString
  end.

(** [s.substring(n)] *)
Definition substring_from (n : nat) (s : string) : string := drop n s.

(** [s.endsWith(p)] *)
Definition endsWith (s p : string) : bool :=
  (String.length p <=? String.length s)%nat
  && String.eqb (drop (String.length s - String.length p) s) p.

(** [s.includes(p)] *)
Fixpoint includes (s p : string) : bool :=
  String.prefix p s
  || match s with
     | EmptyString => false
     | String _ s' => includes s' p
     end.

(** [s.indexOf(c)] for a one-character needle; [None] is [-1]. *)
Fixpoint indexOf (c : ascii) (s : string) : option nat :=
  match s with
  | EmptyString => None
  | String a s' =>
      if Ascii.eqb a c then Some O else option_map S (indexOf c s')
  end.

Fixpoint trimStart (s : string) : string :=
  match s with
  | EmptyString => EmptyString
  | String a s' => if is_space a then trimStart s' else s
  end.

Fixpoint trimEnd (s : string) : string :=
  match s with
  | EmptyString => EmptyString
  | String a s' =>
      let t := trimEnd s' in
      if is_space a && String.eqb t "" then "" else String a t
  end.

(** [s.trim()] *)
Definition trim (s : string) : string := trimEnd (trimStart s).

(** [s.split(c)] for a one-character separator. *)
Fixpoint split (sep : ascii) (s : string) : list string :=
  match s with
  | EmptyString => [EmptyString]
  | String a s' =>
      if Ascii.eqb a sep then EmptyString :: split sep s'
      else match split sep s' with
           | h :: t => String a h :: t
           | [] => [String a EmptyString]
           end
  end.

(** [parts.join(sep)] *)
Fixpoint join (sep : string) (l : list string) : string :=
  match l with
  | [] => ""
  | [x] => x
  | x :: rest => x +:+ sep +:+ join sep rest
  end.

Definition digit_val (a : ascii) : Z := (Z.of_N (N_of_ascii a) - 48)%Z.

Fixpoint leading_digits (s : string) (acc : option Z) : option Z :=
  match s with
  | String a s' =>
      if is_digit a
      then leading_digits s' (Some (10 * default 0 acc + digit_val a)%Z)
      else acc
  | EmptyString => acc
  end.

(** [parseInt(s, 10)]; [None] is [NaN].  The value is the exact integer
    (a JavaScript number agrees with it below 2^53 and has the same
    sign beyond). *)
Definition parseInt (s : string) : option Z :=
  match trimStart s with
  | String "-" r => Z.opp <$> leading_digits r None
  | String "+" r => leading_digits r None
  | r => leading_digits r None
  end.

(** [n.toString()] for an integer. *)
Definition toString (n : Z) : string := pretty n.

End JS.

(** ** Regular expressions

    The fragment of ECMAScript regular expressions the sources use:
    character classes, greedy quantifiers over a class, sequencing,
    capture groups and the two anchors, matched by backtracking with the
    leftmost start and greedy choices first. *)

Module Regex.

Inductive cclass :=
| CDigit                      (* \d *)
| CSpace                      (* \s *)
| CNonSpace                   (* \S *)
| CDot                        (* .  *)
| CLit (a : ascii)
| CAlt (c1 c2 : cclass).      (* [...] *)

Fixpoint in_class (c : cclass) (a : ascii) : bool :=
  match c with
  | CDigit => JS.is_digit a
  | CSpace => JS.is_space a
  | CNonSpace => negb (JS.is_space a)
  | CDot => negb (JS.is_newline a)
  | CLit b => Ascii.eqb a b
  | CAlt c1 c2 => in_class c1 a || in_class c2 a
  end.

Inductive regex :=
| Chr (c : cclass)
| Star (c : cclass)           (* c* *)
| Plus (c : cclass)           (* c+ *)
| Opt (c : cclass)            (* c? *)
| Rep (n : nat) (c : cclass)  (* c{n} *)
| Seq (r1 r2 : regex)
| Grp (i : nat) (r : regex)   (* the i-th capture group *)
| Bol                         (* ^ *)
| Eol                         (* $ *)
| Eps.                        (* the empty pattern *)

Fixpoint lit (s : string) : regex :=
  match s with
  | String a EmptyString => Chr (CLit a)
  | String a s' => Seq (Chr (CLit a)) (lit s')
  | EmptyString => Eps
  end.

(** The match array: index 0 is the whole match. *)
Definition captures := gmap nat string.

Section matcher.
Context {R : Type}.
Variable input : string.
Variable multiline : bool.

Definition at_bol (pos : nat) : bool :=
  match pos with
  | O => true
  | S p =>
      multiline &&
      match String.get p input with
      | Some a => JS.is_newline a
      | None => false
      end
  end.

Definition at_eol (rest : string) : bool :=
  match rest with
  | EmptyString => true
  | String a _ => multiline && JS.is_newline a
  end.

Fixpoint star (c : cclass) (pos : nat) (s : string)
    (k : nat -> string -> option R) : option R :=
  match s with
  | String a s' =>
      if in_class c a
      then match star c (S pos) s' k with
           | Some r => Some r
           | None => k pos s
           end
      else k pos s
  | EmptyString => k pos s
  end.

Fixpoint rep (n : nat) (c : cclass) (pos : nat) (s : string)
    (k : nat -> string -> option R) : option R :=
  match n with
  | O => k pos s
  | S n' =>
      match s with
      | String a s' => if in_class c a then rep n' c (S pos) s' k else None
      | EmptyString => None
      end
  end.

Fixpoint run (r : regex) (pos : nat) (s : string) (caps : captures)
    (k : nat -> string -> captures -> option R) : option R :=
  match r with
  | Chr c =>
      match s with
      | String a s' => if in_class c a then k (S pos) s' caps else None
      | EmptyString => None
      end
  | Star c => star c pos s (fun p' s' => k p' s' caps)
  | Plus c =>
      match s with
      | String a s' =>
          if in_class c a
          then star c (S pos) s' (fun p' s' => k p' s' caps)
          else None
      | EmptyString => None
      end
  | Opt c =>
      match s with
      | String a s' =>
          if in_class c a
          then match k (S pos) s' caps with
               | Some r => Some r
               | None => k pos s caps
               end
          else k pos s caps
      | EmptyString => k pos s caps
      end
  | Rep n c => rep n c pos s (fun p' s' => k p' s' caps)
  | Seq r1 r2 =>
      run r1 pos s caps (fun p' s' caps' => run r2 p' s' caps' k)
  | Grp i r1 =>
      run r1 pos s caps
        (fun p' s' caps' =>
           k p' s' (<[i := String.substring pos (p' - pos) input]> caps'))
  | Bol => if at_bol pos then k pos s caps else None
  | Eol => if at_eol s then k pos s caps else None
  | Eps => k pos s caps
  end.
End matcher.

(** A successful match: where it starts, where it ends, its groups. *)
Record found := { m_start : nat; m_end : nat; m_groups : captures }.

Fixpoint search_from (input : string) (multiline : bool) (r : regex)
    (pos : nat) (s : string) : option found :=
  match
    run input multiline r pos s ∅
      (fun p' _ caps =>
         Some {| m_start := pos; m_end := p';
                 m_groups := <[O := String.substring pos (p' - pos) input]> caps |})
  with
  | Some m => Some m
  | None =>
      match s with
      | String _ s' => search_from input multiline r (S pos) s'
      | EmptyString => None
      end
  end.

(** [re.exec(s)] / [s.match(re)] without the [g] flag. *)
Definition exec (multiline : bool) (r : regex) (s : string) : option found :=
  search_from s multiline r O s.

(** [m[i]] *)
Definition group (m : found) (i : nat) : option string := m_groups m !! i.

(** [re.test(s)] *)
Definition test (multiline : bool) (r : regex) (s : string) : bool :=
  bool_decide (is_Some (exec multiline r s)).

(** [re.test(s)] for a pattern with the [i] flag whose literal characters
    are written in lower case. *)
Definition test_i (multiline : bool) (r : regex) (s : string) : bool :=
  test multiline r (JS.toLowerCase s).

(** [s.replace(re, "")] without the [g] flag: the first match is cut out. *)
Definition remove_first (r : regex) (s : string) : string :=
  match exec false r s with
  | Some m => String.substring O (m_start m) s +:+ JS.drop (m_end m) s
  | None => s
  end.

Fixpoint seq (l : list regex) : regex :=
  match l with
  | [] => Eps
  | [r] => r
  | r :: rest => Seq r (seq rest)
  end.

End Regex.

(** ** Data model ([types.ts]) *)

(** A JavaScript number holding an integer, or [NaN] as [None]. *)
Abbreviation number := (option Z).

(** [number | "default"] *)
Inductive ChangelistId :=
| Default
| Numbered (n : number).

Inductive ChangelistStatus := Pending | Submitted | Shelved.

Record P4Info := {
  userName : string;
  clientName : string;
  clientRoot : string;
  serverAddress : string;
  serverVersion : option string;
}.

Record P4FileStatus := {
  fs_depotFile : string;
  fs_clientFile : string;
  fs_vaultPath : string;
  fs_action : string;
  fs_changelist : ChangelistId;
  fs_type : option string;
  fs_rev : option number;
  fs_haveRev : option number;
}.

Record P4Changelist := {
  cl_change : ChangelistId;
  cl_description : string;
  cl_user : string;
  cl_client : string;
  cl_status : ChangelistStatus;
  cl_date : option string;
}.

Inductive ConflictType := Content | Action.

Record P4ConflictFile := {
  cf_depotFile : string;
  cf_clientFile : string;
  cf_vaultPath : string;
  cf_baseRev : number;
  cf_theirRev : number;
  cf_conflictType : ConflictType;
  cf_fromFile : option string;
}.

Inductive P4ResolveAction :=
| AcceptYours
| AcceptTheirs
| AcceptMerged
| AcceptSafeMerge.

Record P4BlameLine := {
  bl_lineNumber : nat;
  bl_changelist : number;
  bl_user : string;
  bl_date : option string;
  bl_content : string;
  bl_description : option string;
}.

Record P4BlameResult := {
  br_filePath : string;
  br_lines : list P4BlameLine;
  br_fetchedAt : Z;
}.

(** [P4MergeVersions] *)
Record P4MergeVersions := {
  mv_base : string;
  mv_theirs : string;
  mv_yours : string;
}.

(** ** The annotate parser ([P4Manager.annotate], the parsing loop) *)

Module Annotate.
Import Regex.

(** In the patterns quoted below, [(REST)] stands for the final capture
    group of the source pattern: a dot under a star, in parentheses. *)

Definition chr (a : ascii) : regex := Chr (CLit a).
Definition date_sep : cclass := CAlt (CLit "/") (CLit "-").

(** [\d{4}\/\d{2}\/\d{2}] *)
Definition slash_date : regex :=
  seq [Rep 4 CDigit; chr "/"; Rep 2 CDigit; chr "/"; Rep 2 CDigit].

(** [/^(\d+):\s*(\S+)\s+(\d{4}[\/\-]\d{2}[\/\-]\d{2})(REST)$/] *)
Definition mainRe : regex :=
  seq [Bol; Grp 1 (Plus CDigit); chr ":"; Star CSpace; Grp 2 (Plus CNonSpace);
       Plus CSpace;
       Grp 3 (seq [Rep 4 CDigit; Chr date_sep; Rep 2 CDigit; Chr date_sep;
                   Rep 2 CDigit]);
       Grp 4 (Star CDot); Eol].

(** [/^(\d+):\s*(\S+)\s+(\d{4}\/\d{2}\/\d{2}):\s*(REST)$/] *)
Definition re2 : regex :=
  seq [Bol; Grp 1 (Plus CDigit); chr ":"; Star CSpace; Grp 2 (Plus CNonSpace);
       Plus CSpace; Grp 3 slash_date; chr ":"; Star CSpace;
       Grp 4 (Star CDot); Eol].

(** [/^(\d+):\s*(\S+):\s*(REST)$/] *)
Definition re3 : regex :=
  seq [Bol; Grp 1 (Plus CDigit); chr ":"; Star CSpace; Grp 2 (Plus CNonSpace);
       chr ":"; Star CSpace; Grp 3 (Star CDot); Eol].

(** [/^(\d+)\s*-\s*(\S+)\s+(\d{4}\/\d{2}\/\d{2}):\s?(REST)$/] *)
Definition re4 : regex :=
  seq [Bol; Grp 1 (Plus CDigit); Star CSpace; chr "-"; Star CSpace;
       Grp 2 (Plus CNonSpace); Plus CSpace; Grp 3 slash_date; chr ":";
       Opt CSpace; Grp 4 (Star CDot); Eol].

(** [/^(\d+):\s*(REST)$/] *)
Definition re5 : regex :=
  seq [Bol; Grp 1 (Plus CDigit); chr ":"; Star CSpace; Grp 2 (Star CDot); Eol].

(** [/^(\S+)\s+(\d+)\s+(\d{4}\/\d{2}\/\d{2}):\s?(REST)$/] *)
Definition re6 : regex :=
  seq [Bol; Grp 1 (Plus CNonSpace); Plus CSpace; Grp 2 (Plus CDigit);
       Plus CSpace; Grp 3 slash_date; chr ":"; Opt CSpace;
       Grp 4 (Star CDot); Eol].

(** [/^[\s:]+/] *)
Definition leadingSpaceColon : regex :=
  Seq Bol (Plus (CAlt CSpace (CLit ":"))).

(** [m && m[i] && m[j] ...]: the match exists and the groups are truthy. *)
Definition matched (r : regex) (line : string) (needed : list nat)
    : option found :=
  match exec false r line with
  | Some m =>
      if forallb (fun i => JS.truthy_opt (group m i)) needed
      then Some m else None
  | None => None
  end.

Definition grp (m : found) (i : nat) : string := default "" (group m i).

(** One iteration of the loop body below the two [continue] guards, for
    the already incremented [lineNumber]; [None] when no pattern matches. *)
Definition parseLine (line : string) (lineNumber : nat) : option P4BlameLine :=
  match matched mainRe line [1; 2; 3]%nat with
  | Some m =>
      let content :=
        JS.trim (remove_first leadingSpaceColon (JS.or_else (group m 4) "")) in
      Some {| bl_lineNumber := lineNumber;
              bl_changelist := JS.parseInt (grp m 1);
              bl_user := grp m 2;
              bl_date := Some (grp m 3);
              bl_content := content;
              bl_description := None |}
  | None =>
  match matched re2 line [1; 2; 3]%nat with
  | Some m =>
      Some {| bl_lineNumber := lineNumber;
              bl_changelist := JS.parseInt (grp m 1);
              bl_user := grp m 2;
              bl_date := Some (grp m 3);
              bl_content := JS.trim (JS.or_else (group m 4) "");
              bl_description := None |}
  | None =>
  match matched re3 line [1; 2]%nat with
  | Some m =>
      Some {| bl_lineNumber := lineNumber;
              bl_changelist := JS.parseInt (grp m 1);
              bl_user := grp m 2;
              bl_date := None;
              bl_content := JS.trim (JS.or_else (group m 3) "");
              bl_description := None |}
  | None =>
  match matched re4 line [1; 2; 3]%nat with
  | Some m =>
      Some {| bl_lineNumber := lineNumber;
              bl_changelist := JS.parseInt (grp m 1);
              bl_user := grp m 2;
              bl_date := Some (grp m 3);
              bl_content := JS.or_else (group m 4) "";
              bl_description := None |}
  | None =>
  match matched re5 line [1]%nat with
  | Some m =>
      Some {| bl_lineNumber := lineNumber;
              bl_changelist := JS.parseInt (grp m 1);
              bl_user := "unknown";
              bl_date := None;
              bl_content := JS.or_else (group m 2) "";
              bl_description := None |}
  | None =>
  match matched re6 line [1; 2; 3]%nat with
  | Some m =>
      Some {| bl_lineNumber := lineNumber;
              bl_changelist := JS.parseInt (grp m 2);
              bl_user := grp m 1;
              bl_date := Some (grp m 3);
              bl_content := JS.or_else (group m 4) "";
              bl_description := None |}
  | None => None
  end end end end end end.

(** The [for] loop over the output lines, threading [lineNumber]. *)
Fixpoint parseLines (outputLines : list string) (lineNumber : nat)
    : list P4BlameLine :=
  match outputLines with
  | [] => []
  | line :: rest =>
      if negb (JS.truthy line) || String.eqb (JS.trim line) "" then
        parseLines rest lineNumber
      else if JS.startsWith line "//" then
        parseLines rest lineNumber
      else
        match parseLine line (S lineNumber) with
        | Some bl => bl :: parseLines rest (S lineNumber)
        | None => parseLines rest lineNumber
        end
  end.

(** From the tool's output to the [lines] of the result:
    [output.replace(/\r/g, "").split("\n")] and the loop. *)
Definition parseOutput (output : string) : list P4BlameLine :=
  parseLines (JS.split JS.LF (JS.remove_char JS.CR output)) 0.

End Annotate.

(** ** Path functions of the platform

    [path.join] and [path.relative] come from Node's [path] module and
    [normalizePath] from the Obsidian API; neither is part of the plugin.
    They are modelled here after their documented behaviour, in the POSIX
    flavour of [path] ([/] is the only separator), on path segments. *)

Module Path.

Definition isAbsolute (p : string) : bool :=
  match p with
  | String a _ => Ascii.eqb a JS.slash
  | EmptyString => false
  end.

(** One segment against the stack of segments kept so far (top first):
    empty and [.] segments vanish, [..] pops a kept segment, and climbs
    above the start only where that is allowed. *)
Definition step (allowAboveRoot : bool) (stk : list string) (seg : string)
    : list string :=
  if String.eqb seg "" || String.eqb seg "." then stk
  else if String.eqb seg ".." then
    match stk with
    | top :: below =>
        if String.eqb top ".."
        then (if allowAboveRoot then seg :: stk else stk)
        else below
    | [] => if allowAboveRoot then [seg] else []
    end
  else seg :: stk.

Definition normalizeSegs (allowAboveRoot : bool) (segs : list string)
    : list string :=
  rev (fold_left (step allowAboveRoot) segs []).

Definition segments (p : string) : list string := JS.split JS.slash p.

Definition normalizeString (allowAboveRoot : bool) (p : string) : string :=
  JS.join "/" (normalizeSegs allowAboveRoot (segments p)).

(** [path.normalize(p)] *)
Definition normalize (p : string) : string :=
  if String.eqb p "" then "."
  else
    let isAbs := isAbsolute p in
    let trailingSeparator := JS.endsWith p "/" in
    let body := normalizeString (negb isAbs) p in
    if String.eqb body "" then
      if isAbs then "/" else if trailingSeparator then "./" else "."
    else
      let body := if trailingSeparator then body +:+ "/" else body in
      if isAbs then "/" +:+ body else body.

(** [path.join(a, b)] *)
Definition join (a b : string) : string :=
  if String.eqb a "" then (if String.eqb b "" then "." else normalize b)
  else if String.eqb b "" then normalize a
  else normalize (a +:+ "/" +:+ b).

(** The segments of [path.resolve(p)], for the working directory [cwd]
    of the process (an absolute path). *)
Definition resolveSegs (cwd p : string) : list string :=
  let raw :=
    if String.eqb p "" then cwd +:+ "/"
    else if isAbsolute p then p +:+ "/"
    else cwd +:+ "/" +:+ p +:+ "/" in
  normalizeSegs false (segments raw).

(** [path.resolve(p)] *)
Definition resolve (cwd p : string) : string :=
  "/" +:+ JS.join "/" (resolveSegs cwd p).

Fixpoint commonPrefix (l1 l2 : list string) : nat :=
  match l1, l2 with
  | x :: l1', y :: l2' => if String.eqb x y then S (commonPrefix l1' l2') else O
  | _, _ => O
  end.

(** [path.relative(from, to)]: climb out of what is left of [from] after
    the common directories, then descend into what is left of [to]. *)
Definition relative (cwd from to : string) : string :=
  if String.eqb from to then ""
  else
    let f := resolveSegs cwd from in
    let t := resolveSegs cwd to in
    let c := commonPrefix f t in
    JS.join "/" (repeat ".." (length f - c) ++ skipn c t)%list.

Definition nbsp_to_space (a : ascii) : ascii :=
  if Ascii.eqb a JS.NBSP then " "%char else a.

(** Obsidian's [normalizePath(p)]: runs of [/] and [\] become one [/],
    leading and trailing separators go, the empty result is [/], and a
    no-break space becomes a space. *)
Definition normalizePath (p : string) : string :=
  match filter (fun seg => JS.truthy seg) (segments (JS.unbackslash p)) with
  | [] => "/"
  | segs => JS.map_chars nbsp_to_space (JS.join "/" segs)
  end.

(** [p] lies under the directory [root]: the resolved segments of
    [root] are a proper prefix of those of [p]. *)
Definition under (cwd root p : string) : bool :=
  let r := resolveSegs cwd root in
  let s := resolveSegs cwd p in
  (length r <? length s)%nat
  && bool_decide (take (length r) s = r).

End Path.

(** ** Effects: the plugin state and the world around it *)

(** The outcome of an [await]ed call: a value, or a thrown [Error] with its
    message. *)
Inductive Res (A : Type) :=
| Ok (a : A)
| Err (message : string).
Arguments Ok {A} a.
Arguments Err {A} message.

(** What [execAsync(cmd, options)] does with a command line. *)
Inductive ExecOutcome :=
| Exited (stdout stderr : string)
    (* the promise resolves *)
| Failed (stderr : option string) (message : string) (killed : bool).
    (* the promise rejects: non-zero exit, spawn failure, or time-out kill *)

(** A parsed line of the tool's [-Mj] output: field name to string value. *)
Abbreviation JsonObj := (gmap string string).

(** The world outside the plugin. *)
Record Env := {
  (** the value of the [p4Path] getter: the executable to run *)
  p4Path : string;
  (** [adapter.getBasePath()], the working-copy root; [""] without a
      file-system adapter *)
  vaultPath : string;
  (** [process.cwd()] *)
  cwd : string;
  (** the external tool *)
  execAsync : string -> ExecOutcome;
  (** [JSON.parse(line)]; [None] when it throws *)
  JSON_parse : string -> option JsonObj;
  (** [adapter.write(path, content)]: [Some msg] when it throws *)
  write_error : string -> string -> option string;
  (** [Date.now()] *)
  now : Z;
}.

Inductive Effect :=
| Spawn (cmd : string)                  (* an external process is started *)
| WriteFile (path content : string)     (* [adapter.write] is called *)
| Notice (text : string).               (* a [Notice] is shown *)

(** An effect together with the value [isResolvingMerge] had when it
    happened. *)
Record Event := {
  effect : Effect;
  whileResolvingMerge : bool;
}.

(** [TFile] *)
Record TFile := {
  path : string;
  name : string;
}.

(** The mutable fields of [P4Manager] and of the plugin, the contents of
    the vault, and the effects so far (oldest first). *)
Record State := {
  info : option P4Info;
  p4Ready : bool;
  cachedOpenedFiles : list P4FileStatus;
  cachedDepotFiles : gset string;
  isRevertingFile : bool;
  isResolvingMerge : bool;
  vaultFiles : gmap string string;
  events : list Event;
}.

Definition M (A : Type) : Type := State -> Res A * State.

Definition ret {A} (a : A) : M A := fun s => (Ok a, s).
Definition throw {A} (message : string) : M A := fun s => (Err message, s).

Definition bind {A B} (m : M A) (k : A -> M B) : M B :=
  fun s =>
    match m s with
    | (Ok a, s') => k a s'
    | (Err e, s') => (Err e, s')
    end.

Notation "'let*' x ':=' m 'in' k" := (bind m (fun x => k))
  (at level 10, x pattern, m at level 100, k at level 200).

(** [try { m } catch (error) { h error.message }] *)
Definition try_catch {A} (m : M A) (h : string -> M A) : M A :=
  fun s =>
    match m s with
    | (Ok a, s') => (Ok a, s')
    | (Err e, s') => h e s'
    end.

(** [try { m } finally { f }], for a [finally] block that only assigns. *)
Definition try_finally {A} (m : M A) (f : State -> State) : M A :=
  fun s => let '(r, s') := m s in (r, f s').

Definition get_state : M State := fun s => (Ok s, s).
Definition modify_state (f : State -> State) : M unit := fun s => (Ok tt, f s).

Definition set_isRevertingFile (b : bool) (s : State) : State :=
  {| info := info s; p4Ready := p4Ready s;
     cachedOpenedFiles := cachedOpenedFiles s;
     cachedDepotFiles := cachedDepotFiles s;
     isRevertingFile := b; isResolvingMerge := isResolvingMerge s;
     vaultFiles := vaultFiles s; events := events s |}.

Definition set_isResolvingMerge (b : bool) (s : State) : State :=
  {| info := info s; p4Ready := p4Ready s;
     cachedOpenedFiles := cachedOpenedFiles s;
     cachedDepotFiles := cachedDepotFiles s;
     isRevertingFile := isRevertingFile s; isResolvingMerge := b;
     vaultFiles := vaultFiles s; events := events s |}.

Definition set_cachedDepotFiles (d : gset string) (s : State) : State :=
  {| info := info s; p4Ready := p4Ready s;
     cachedOpenedFiles := cachedOpenedFiles s;
     cachedDepotFiles := d;
     isRevertingFile := isRevertingFile s;
     isResolvingMerge := isResolvingMerge s;
     vaultFiles := vaultFiles s; events := events s |}.

Definition set_cachedOpenedFiles (l : list P4FileStatus) (s : State) : State :=
  {| info := info s; p4Ready := p4Ready s;
     cachedOpenedFiles := l;
     cachedDepotFiles := cachedDepotFiles s;
     isRevertingFile := isRevertingFile s;
     isResolvingMerge := isResolvingMerge s;
     vaultFiles := vaultFiles s; events := events s |}.

Definition set_vaultFiles (v : gmap string string) (s : State) : State :=
  {| info := info s; p4Ready := p4Ready s;
     cachedOpenedFiles := cachedOpenedFiles s;
     cachedDepotFiles := cachedDepotFiles s;
     isRevertingFile := isRevertingFile s;
     isResolvingMerge := isResolvingMerge s;
     vaultFiles := v; events := events s |}.

(** Record an effect, stamped with the current [isResolvingMerge]. *)
Definition emit (e : Effect) : M unit :=
  modify_state (fun s =>
    {| info := info s; p4Ready := p4Ready s;
       cachedOpenedFiles := cachedOpenedFiles s;
       cachedDepotFiles := cachedDepotFiles s;
       isRevertingFile := isRevertingFile s;
       isResolvingMerge := isResolvingMerge s;
       vaultFiles := vaultFiles s;
       events := (events s ++ [{| effect := e;
                                  whileResolvingMerge := isResolvingMerge s |}])%list |}).

(** The effects of a run: what [s'] has recorded beyond [s]. *)
Definition new_events (s s' : State) : list Event :=
  skipn (length (events s)) (events s').

Definition effects_of (l : list Event) : list Effect := map effect l.

Definition is_spawn (e : Effect) : bool :=
  match e with Spawn _ => true | _ => false end.
Definition is_notice (e : Effect) : bool :=
  match e with Notice _ => true | _ => false end.

Definition dquote : string := String (ascii_of_N 34) EmptyString.

(** [`"${s}"`] *)
Definition quoted (s : string) : string := dquote +:+ s +:+ dquote.

(** ** The command bridge and the repository model ([p4Manager.ts]) *)

Module P4Manager.
Import Regex.

Definition number_toString (n : number) : string :=
  match n with
  | Some z => JS.toString z
  | None => "NaN"
  end.

(** The patterns of [isP4Error]; all carry the [i] flag and are written
    in lower case, the first two are anchored at a line start ([m]). *)
Definition errorPatterns : list (bool * regex) :=
  [ (true, Seq Bol (lit "error:"));
    (true, Seq Bol (lit "fatal:"));
    (false, seq [lit "password"; Star CDot; lit "invalid"]);
    (false, lit "not logged in");
    (false, lit "connect to server failed");
    (false, seq [lit "client"; Star CDot; lit "unknown"]);
    (false, lit "no such file") ].

Definition isP4Error (stderr : string) : bool :=
  existsb (fun '(multiline, r) => test_i multiline r stderr) errorPatterns.

Section with_env.
Variable E : Env.

(** [runP4(args)] *)
Definition runP4 (args : list string) : M string :=
  let cmd := quoted (p4Path E) +:+ " " +:+ JS.join " " args in
  let* _ := emit (Spawn cmd) in
  match execAsync E cmd with
  | Exited stdout stderr =>
      if JS.truthy stderr && isP4Error stderr
      then throw stderr
      else ret stdout
  | Failed stderr message killed =>
      if killed then throw "P4 command timed out after 30 seconds"
      else throw (JS.or_else stderr message)
  end.

(** The body of the [for] loop of [runP4Json]: a line that does not
    parse is skipped, and so is an error object with data. *)
Definition jsonLine (line : string) : option JsonObj :=
  match JSON_parse E line with
  | Some parsed =>
      if bool_decide (parsed !! "code" = Some "error")
         && JS.truthy_opt (parsed !! "data")
      then None
      else Some parsed
  | None => None
  end.

(** [runP4Json(args)] *)
Definition runP4Json (args : list string) : M (list JsonObj) :=
  let* output := runP4 ("-Mj" :: "-ztag" :: args) in
  let lines :=
    filter (fun line => JS.truthy (JS.trim line))
           (JS.split JS.LF (JS.trim output)) in
  ret (omap jsonLine lines).

(** [toAbsolutePath(vaultPath)] *)
Definition toAbsolutePath (vaultRelative : string) : string :=
  Path.join (vaultPath E) vaultRelative.

(** [toVaultPath(absolutePath)] *)
Definition toVaultPath (absolutePath : string) : string :=
  Path.normalizePath (Path.relative (cwd E) (vaultPath E) absolutePath).

(** [getInfo()] *)
Definition getInfo : M P4Info :=
  let* results := runP4Json ["info"] in
  let data : JsonObj := default ∅ (head results) in
  ret {| userName := JS.or_else (data !! "userName") "";
         clientName := JS.or_else (data !! "clientName") "";
         clientRoot := JS.or_else (data !! "clientRoot") "";
         serverAddress := JS.or_else (data !! "serverAddress") "";
         serverVersion := data !! "serverVersion" |}.

(** [this.info || await this.getInfo()] *)
Definition infoOrGet : M P4Info :=
  let* s := get_state in
  match info s with
  | Some i => ret i
  | None => getInfo
  end.

(** The conversion of a [clientFile] to an absolute path that
    [getOpenedFiles], [getHaveFiles] and [getConflicts] share: strip
    [//clientName/] and put the client root in front. *)
Definition clientFileToAbsolute (clientRoot clientFile : string) : string :=
  if JS.startsWith clientFile "//" then
    let afterDoubleSlash := JS.substring_from 2 clientFile in
    match JS.indexOf JS.slash afterDoubleSlash with
    | Some slashIndex =>
        let relativePath := JS.substring_from (slashIndex + 1) afterDoubleSlash in
        clientRoot +:+ "/" +:+ relativePath
    | None => clientFile
    end
  else clientFile.

(** [vaultPath.replace(/\\/g, "/").toLowerCase()] *)
Definition vaultPathNormalized : string :=
  JS.toLowerCase (JS.unbackslash (vaultPath E)).

(** The changelist of an opened file: [default] unless [change] parses
    to a positive number. *)
Definition openedChangelist (change : option string) : ChangelistId :=
  if JS.truthy_opt change && negb (String.eqb (default "" change) "default")
  then
    match JS.parseInt (default "" change) with
    | Some parsed =>
        if (0 <? parsed)%Z then Numbered (Some parsed) else Default
    | None => Default
    end
  else Default.

(** [field ? parseInt(field, 10) : undefined] *)
Definition optionalInt (field : option string) : option number :=
  if JS.truthy_opt field then Some (JS.parseInt (default "" field)) else None.

(** One iteration of the loop of [getOpenedFiles]: [None] when the
    record is skipped by [continue]. *)
Definition openedItem (i : P4Info) (item : JsonObj) : option P4FileStatus :=
  let clientRoot := JS.unbackslash (clientRoot i) in
  let clientFile := JS.or_else (item !! "clientFile") "" in
  let absolutePath := clientFileToAbsolute clientRoot clientFile in
  let absolutePathNormalized := JS.toLowerCase absolutePath in
  if negb (JS.startsWith absolutePathNormalized vaultPathNormalized) then None
  else
    Some {| fs_depotFile := JS.or_else (item !! "depotFile") "";
            fs_clientFile := absolutePath;
            fs_vaultPath := toVaultPath absolutePath;
            fs_action := JS.or_else (item !! "action") "edit";
            fs_changelist := openedChangelist (item !! "change");
            fs_type := item !! "type";
            fs_rev := optionalInt (item !! "rev");
            fs_haveRev := optionalInt (item !! "haveRev") |}.

(** [getOpenedFiles()] *)
Definition getOpenedFiles : M (list P4FileStatus) :=
  try_catch
    (let* results := runP4Json ["opened"] in
     let* i := infoOrGet in
     ret (omap (openedItem i) results))
    (fun message =>
       if JS.includes message "not opened" then ret [] else throw message).

(** The [filter] of [getPendingChangelists]. *)
Definition isNumberedChange (item : JsonObj) : bool :=
  JS.truthy_opt (item !! "change")
  && match JS.parseInt (default "" (item !! "change")) with
     | Some n => (0 <? n)%Z
     | None => false
     end.

(** The [map] of [getPendingChangelists]. *)
Definition toChangelist (item : JsonObj) : P4Changelist :=
  {| cl_change := Numbered (JS.parseInt (default "" (item !! "change")));
     cl_description := JS.trim (JS.or_else (item !! "desc") "");
     cl_user := JS.or_else (item !! "user") "";
     cl_client := JS.or_else (item !! "client") "";
     cl_status := Pending;
     cl_date := item !! "time" |}.

(** The entry [getPendingChangelists] puts in front. *)
Definition defaultChangelist (i : P4Info) : P4Changelist :=
  {| cl_change := Default;
     cl_description := "Default changelist";
     cl_user := userName i;
     cl_client := clientName i;
     cl_status := Pending;
     cl_date := None |}.

(** [getPendingChangelists()] *)
Definition getPendingChangelists : M (list P4Changelist) :=
  let* i := infoOrGet in
  let* results :=
    runP4Json ["changes"; "-s"; "pending"; "-u"; userName i;
               "-c"; clientName i] in
  let changelists := map toChangelist (filter isNumberedChange results) in
  ret (defaultChangelist i :: changelists).

(** [submit(changelist, description)] *)
Definition submit (changelist : ChangelistId) (description : option string)
    : M number :=
  let* args :=
    match changelist with
    | Default =>
        if negb (JS.truthy_opt description)
        then throw "Description is required for default changelist"
        else ret ["submit"; "-d"; quoted (default "" description)]
    | Numbered n => ret ["submit"; "-c"; number_toString n]
    end in
  let* results := runP4Json args in
  let submitted :=
    List.find (fun r : JsonObj => JS.truthy_opt (r !! "submittedChange"))
              results in
  ret (match submitted with
       | Some r => JS.parseInt (default "" (r !! "submittedChange"))
       | None => Some 0%Z
       end).

(** [getDepotContent(filePath)]: [None] is [null]. *)
Definition getDepotContent (filePath : string) : M (option string) :=
  let absPath := toAbsolutePath filePath in
  try_catch
    (let* out := runP4 ["print"; "-q"; quoted absPath] in ret (Some out))
    (fun _ => ret None).

(** [annotate(filePath)] *)
Definition annotate (filePath : string) : M P4BlameResult :=
  let absPath := toAbsolutePath filePath in
  let* output := runP4 ["annotate"; "-u"; "-c"; quoted absPath] in
  ret {| br_filePath := filePath;
         br_lines := Annotate.parseOutput output;
         br_fetchedAt := now E |}.

(** [/^\/+/] *)
Definition leadingSlashes : regex := Seq Bol (Plus (CLit JS.slash)).

(** One iteration of the loop of [getHaveFiles]: the vault-relative
    path added to the set, if any. *)
Definition haveItem (i : P4Info) (item : JsonObj) : option string :=
  let clientRoot := JS.unbackslash (clientRoot i) in
  let clientFile := JS.or_else (item !! "clientFile") "" in
  let absolutePath := clientFileToAbsolute clientRoot clientFile in
  let normalizedPath := JS.toLowerCase (JS.unbackslash absolutePath) in
  if JS.startsWith normalizedPath vaultPathNormalized then
    let vaultRelative :=
      JS.substring_from (String.length vaultPathNormalized) normalizedPath in
    Some (remove_first leadingSlashes vaultRelative)
  else None.

(** [getHaveFiles()].  The set [syncedFiles] is filled by the loop, which
    cannot throw; the two awaited calls come before it, so the set the
    [catch] path returns is the initial, empty one. *)
Definition getHaveFiles : M (gset string) :=
  let syncedFiles : gset string := ∅ in
  try_catch
    (let vaultPathForP4 := JS.unbackslash (vaultPath E) in
     let* results := runP4Json ["have"; quoted (vaultPathForP4 +:+ "/...")] in
     let* i := infoOrGet in
     ret (syncedFiles ∪ list_to_set (omap (haveItem i) results)))
    (fun _ => ret syncedFiles).

(** One iteration of the loop of [getConflicts]. *)
Definition conflictItem (i : P4Info) (item : JsonObj) : option P4ConflictFile :=
  let clientRoot := JS.unbackslash (clientRoot i) in
  let clientFile := JS.or_else (item !! "clientFile") "" in
  let absolutePath := clientFileToAbsolute clientRoot clientFile in
  let absolutePathNormalized := JS.toLowerCase absolutePath in
  if negb (JS.startsWith absolutePathNormalized vaultPathNormalized) then None
  else
    Some {| cf_depotFile := JS.or_else (item !! "fromFile") clientFile;
            cf_clientFile := absolutePath;
            cf_vaultPath := toVaultPath absolutePath;
            cf_baseRev := JS.parseInt (JS.or_else (item !! "baseRev") "0");
            cf_theirRev := JS.parseInt (JS.or_else (item !! "endFromRev") "0");
            cf_conflictType :=
              if bool_decide (item !! "resolveType" = Some "content")
              then Content else Action;
            cf_fromFile := item !! "fromFile" |}.

(** [getConflicts()].  As in [getHaveFiles], the list [conflicts] is
    still empty wherever the [try] block can throw. *)
Definition getConflicts : M (list P4ConflictFile) :=
  let conflicts : list P4ConflictFile := [] in
  try_catch
    (let vaultPathForP4 := JS.unbackslash (vaultPath E) in
     let* results :=
       runP4Json ["resolve"; "-n"; quoted (vaultPathForP4 +:+ "/...")] in
     let* i := infoOrGet in
     ret (conflicts ++ omap (conflictItem i) results)%list)
    (fun message =>
       if JS.includes message "No file(s) to resolve"
          || JS.includes message "no file(s) to resolve"
       then ret []
       else ret conflicts).

(** [this.plugin.app.vault.adapter.write(path, content)] *)
Definition adapter_write (path content : string) : M unit :=
  let* _ := emit (WriteFile path content) in
  match write_error E path content with
  | Some message => throw message
  | None =>
      modify_state (fun s => set_vaultFiles (<[path := content]> (vaultFiles s)) s)
  end.

(** [resolve(filePath, action, mergedContent)] *)
Definition resolve (filePath : string) (action : P4ResolveAction)
    (mergedContent : option string) : M unit :=
  let absPath := toAbsolutePath filePath in
  match action with
  | AcceptYours =>
      let* _ := runP4 ["resolve"; "-ay"; quoted absPath] in ret tt
  | AcceptTheirs =>
      let* _ := runP4 ["resolve"; "-at"; quoted absPath] in ret tt
  | AcceptMerged =>
      let* _ := modify_state (set_isResolvingMerge true) in
      try_finally
        (let* _ :=
           match mergedContent with
           | Some content => adapter_write filePath content
           | None => ret tt
           end in
         let* _ := runP4 ["resolve"; "-ae"; quoted absPath] in
         ret tt)
        (set_isResolvingMerge false)
  | AcceptSafeMerge =>
      let* _ := runP4 ["resolve"; "-as"; quoted absPath] in ret tt
  end.

(** [edit(filePath)] *)
Definition edit (filePath : string) : M unit :=
  let absPath := toAbsolutePath filePath in
  let* _ := runP4 ["edit"; quoted absPath] in ret tt.

(** [editAndLock(filePath)] *)
Definition editAndLock (filePath : string) : M unit :=
  let absPath := toAbsolutePath filePath in
  let* _ := runP4 ["edit"; "-t"; "+l"; quoted absPath] in ret tt.

(** [add(filePath)] *)
Definition add (filePath : string) : M unit :=
  let absPath := toAbsolutePath filePath in
  let* _ := runP4 ["add"; quoted absPath] in ret tt.

(** [revert(filePath)] *)
Definition revert (filePath : string) : M unit :=
  let absPath := toAbsolutePath filePath in
  let* _ := runP4 ["revert"; quoted absPath] in ret tt.

(** [isFileOpened(filePath)] *)
Definition isFileOpened (filePath : string) : M bool :=
  let absPath := toAbsolutePath filePath in
  try_catch
    (let* output := runP4 ["opened"; quoted absPath] in
     ret (0 <? String.length (JS.trim output))%nat)
    (fun _ => ret false).

(** [isFileInDepot(filePath)] *)
Definition isFileInDepot (filePath : string) : M bool :=
  let absPath := toAbsolutePath filePath in
  try_catch
    (let* output := runP4 ["files"; quoted absPath] in
     ret ((0 <? String.length (JS.trim output))%nat
          && negb (JS.includes output "no such file")))
    (fun _ => ret false).

(** [ensureCheckedOut(filePath)] *)
Definition ensureCheckedOut (filePath : string) : M bool :=
  let* opened := isFileOpened filePath in
  if opened then ret true
  else
    try_catch
      (let* _ := edit filePath in ret true)
      (fun _ =>
         try_catch
           (let* _ := add filePath in ret true)
           (fun _ => ret false)).

(** [move(oldPath, newPath)] *)
Definition move (oldPath newPath : string) : M unit :=
  let oldAbsPath := toAbsolutePath oldPath in
  let newAbsPath := toAbsolutePath newPath in
  let* isOpened := isFileOpened oldPath in
  let* _ :=
    if negb isOpened
    then (let* _ := runP4 ["edit"; quoted oldAbsPath] in ret tt)
    else ret tt in
  let* _ := runP4 ["move"; quoted oldAbsPath; quoted newAbsPath] in
  ret tt.

(** [getChangelistDescription(changelist)] *)
Definition getChangelistDescription (changelist : number) : M string :=
  try_catch
    (let* results := runP4Json ["describe"; "-s"; number_toString changelist] in
     match results with
     | first :: _ =>
         if JS.truthy_opt (first !! "desc")
         then ret (JS.trim (default "" (first !! "desc")))
         else ret ""
     | [] => ret ""
     end)
    (fun _ => ret "").

(** [this.plugin.app.vault.adapter.read(path)]; reading a file the vault
    does not hold throws. *)
Definition adapter_read (path : string) : M string :=
  let* s := get_state in
  match vaultFiles s !! path with
  | Some content => ret content
  | None => throw "ENOENT: no such file or directory"
  end.

(** [/#(\d+)\s*-/] *)
Definition haveRevRe : regex :=
  seq [Chr (CLit "#"); Grp 1 (Plus CDigit); Star CSpace; Chr (CLit "-")].

(** [getConflictVersions(filePath)] *)
Definition getConflictVersions (filePath : string) : M P4MergeVersions :=
  let absPath := toAbsolutePath filePath in
  let* yours := try_catch (adapter_read filePath) (fun _ => ret "") in
  let* theirs :=
    try_catch (runP4 ["print"; "-q"; quoted absPath]) (fun _ => ret "") in
  let* base :=
    try_catch
      (let* haveOutput := runP4 ["have"; quoted absPath] in
       match exec false haveRevRe haveOutput with
       | Some m =>
           if JS.truthy_opt (group m 1) then
             let haveRev := JS.parseInt (default "" (group m 1)) in
             runP4 ["print"; "-q";
                    quoted (absPath +:+ "#" +:+ number_toString haveRev)]
           else ret ""
       | None => ret ""
       end)
      (fun _ => ret theirs) in
  ret {| mv_base := base; mv_theirs := theirs; mv_yours := yours |}.

(** The loop of [resolveAllSafe]: each conflict goes to [resolved] when
    its safe resolve returns and to [failed] when it throws. *)
Fixpoint resolveEach (conflicts : list P4ConflictFile)
    : M (list string * list string) :=
  match conflicts with
  | [] => ret ([], [])
  | conflict :: rest =>
      let* ok :=
        try_catch
          (let* _ := resolve (cf_vaultPath conflict) AcceptSafeMerge None in
           ret true)
          (fun _ => ret false) in
      let* others := resolveEach rest in
      if ok then ret (cf_vaultPath conflict :: fst others, snd others)
      else ret (fst others, cf_vaultPath conflict :: snd others)
  end.

(** [resolveAllSafe()]: the pair is [(resolved, failed)]. *)
Definition resolveAllSafe : M (list string * list string) :=
  let* conflicts := getConflicts in
  resolveEach conflicts.

Definition TAB : string := String (ascii_of_N 9) EmptyString.

(** The lines pushed for the new description: each line of it behind a
    tab. *)
Definition descriptionLines (newDescription : string) : list string :=
  map (fun descLine => TAB +:+ descLine) (JS.split JS.LF newDescription).

(** The loop of [updateChangelistDescription] over the lines of the spec,
    with its two flags; the result is [newLines] and the final
    [descriptionAdded]. *)
Fixpoint spliceLines (newDescription : string) (lines : list string)
    (inDescription descriptionAdded : bool) : list string * bool :=
  match lines with
  | [] => ([], descriptionAdded)
  | line :: rest =>
      if JS.startsWith line "Description:" then
        let '(out, added) := spliceLines newDescription rest true true in
        ("Description:" :: descriptionLines newDescription ++ out, added)
      else if inDescription then
        if negb (JS.startsWith line TAB) && negb (String.eqb (JS.trim line) "")
        then
          let '(out, added) :=
            spliceLines newDescription rest false descriptionAdded in
          (line :: out, added)
        else spliceLines newDescription rest true descriptionAdded
      else
        let '(out, added) :=
          spliceLines newDescription rest false descriptionAdded in
        (line :: out, added)
  end.

(** The spec [updateChangelistDescription] pipes back, from the output of
    [change -o]; [None] when it throws [Failed to parse changelist spec]. *)
Definition spliceDescription (output newDescription : string) : option string :=
  let '(newLines, descriptionAdded) :=
    spliceLines newDescription (JS.split JS.LF output) false false in
  if descriptionAdded then Some (JS.join (String JS.LF "") newLines) else None.

(** [s.replace(/\n/g, r)] for a one-character pattern. *)
Fixpoint replaceAll (c : ascii) (r : string) (s : string) : string :=
  match s with
  | EmptyString => EmptyString
  | String a s' =>
      if Ascii.eqb a c then r +:+ replaceAll c r s'
      else String a (replaceAll c r s')
  end.

(** The spec [createChangelist] pipes to [change -i]. *)
Definition createSpec (description : string) : string :=
  "Change: new" +:+ String JS.LF (String JS.LF "Description:")
  +:+ String JS.LF TAB
  +:+ replaceAll JS.LF (String JS.LF TAB) description
  +:+ String JS.LF "".

(** [/Change (\d+) created/] *)
Definition createdRe : regex :=
  seq [lit "Change "; Grp 1 (Plus CDigit); lit " created"].

(** The changelist number [createChangelist] reads off the output of
    [change -i]; [None] when it rejects with [Failed to parse changelist
    number]. *)
Definition parseCreated (stdout : string) : option number :=
  match exec false createdRe stdout with
  | Some m =>
      if JS.truthy_opt (group m 1)
      then Some (JS.parseInt (default "" (group m 1)))
      else None
  | None => None
  end.

(** What a child process started with [spawn] and fed on its standard
    input comes to. *)
Inductive ChildExit :=
| Closed (code : Z) (stdout stderr : string)
| SpawnError (message : string).

(** The command of the [spawn] call of [updateChangelistDescription] and
    [createChangelist]. *)
Definition changeInCmd : string := p4Path E +:+ " change -i".

(** [updateChangelistDescription(changelist, newDescription)]; [changeIn]
    is what [p4 change -i] does with the spec on its standard input. *)
Definition updateChangelistDescription (changeIn : string -> ChildExit)
    (changelist : number) (newDescription : string) : M unit :=
  let* output := runP4 ["change"; "-o"; number_toString changelist] in
  match spliceDescription output newDescription with
  | None => throw "Failed to parse changelist spec"
  | Some newSpec =>
      let* _ := emit (Spawn changeInCmd) in
      match changeIn newSpec with
      | Closed code _ stderr =>
          if (code =? 0)%Z then ret tt
          else throw ("p4 change -i failed: " +:+ stderr)
      | SpawnError message => throw message
      end
  end.

(** [createChangelist(description)] *)
Definition createChangelist (changeIn : string -> ChildExit)
    (description : string) : M number :=
  let* _ := emit (Spawn changeInCmd) in
  match changeIn (createSpec description) with
  | Closed code stdout stderr =>
      if (code =? 0)%Z then
        match parseCreated stdout with
        | Some n => ret n
        | None => throw ("Failed to parse changelist number: " +:+ stdout)
        end
      else throw ("p4 change -i failed: " +:+ stderr)
  | SpawnError message => throw message
  end.
End with_env.
End P4Manager.

(** ** The edit guard (plugin core, class [ObsidianP4]) *)

Module Plugin.
Section with_env.
Variable E : Env.

(** [isFileOpenedInCache(filePath)] *)
Definition isFileOpenedInCache (s : State) (filePath : string) : bool :=
  let normalized := JS.toLowerCase (JS.unbackslash filePath) in
  existsb
    (fun opened =>
       let openedPath := JS.toLowerCase (JS.unbackslash (fs_vaultPath opened)) in
       String.eqb openedPath normalized
       || JS.endsWith normalized ("/" +:+ openedPath)
       || JS.endsWith openedPath ("/" +:+ normalized))
    (cachedOpenedFiles s).

(** [isFileInDepotCache(filePath)] *)
Definition isFileInDepotCache (s : State) (filePath : string) : bool :=
  if bool_decide (filePath ∈ cachedDepotFiles s) then true
  else
    let normalized := JS.unbackslash filePath in
    if bool_decide (normalized ∈ cachedDepotFiles s) then true
    else
      let lower := JS.toLowerCase normalized in
      existsb (fun cachedPath => String.eqb (JS.toLowerCase cachedPath) lower)
              (elements (cachedDepotFiles s)).

(** [new Notice(text, 5000)] *)
Definition notice (text : string) : M unit := emit (Notice text).

Definition saveBlockedText (f : TFile) : string :=
  "Save blocked: " +:+ name f
  +:+ " is not checked out. Check out the file first to edit it.".

Definition cannotSaveText (f : TFile) : string :=
  "Cannot save " +:+ name f +:+ " - file is not checked out".

(** [handleFileModify(file)] *)
Definition handleFileModify (file : TFile) : M unit :=
  let* s := get_state in
  if isRevertingFile s || isResolvingMerge s then ret tt
  else if negb (isFileInDepotCache s (path file)) then ret tt
  else if isFileOpenedInCache s (path file) then ret tt
  else
    let* _ := modify_state (set_isRevertingFile true) in
    try_finally
      (try_catch
         (let* depotContent := P4Manager.getDepotContent E (path file) in
          match depotContent with
          | Some content =>
              let* _ := P4Manager.adapter_write E (path file) content in
              notice (saveBlockedText file)
          | None => ret tt
          end)
         (fun _ => notice (cannotSaveText file)))
      (set_isRevertingFile false).

(** The [modify] listener registered by [registerEvents]. *)
Definition onModify (file : TFile) : M unit :=
  let* s := get_state in
  if p4Ready s then handleFileModify file else ret tt.

(** [refreshDepotFilesCache()] *)
Definition refreshDepotFilesCache : M unit :=
  try_catch
    (let* have := P4Manager.getHaveFiles E in
     modify_state (set_cachedDepotFiles have))
    (fun _ => ret tt).
End with_env.
End Plugin.

(** ** The blame cache (class [P4BlameProvider])

    The provider runs on one thread; its [async] methods interleave at
    their [await]s and nowhere else.  A call of [getBlame] in flight is a
    task that sits at one of its suspension points; a step of the world
    either starts a call or lets an awaited operation return, and the code
    between two suspension points runs as one transition. *)

Module Blame.

Definition TEXT_FILE_EXTENSIONS : list string :=
  [ "md"; "txt"; "markdown"; "json"; "yaml"; "yml"; "xml"; "html"; "htm";
    "css"; "js"; "ts"; "tsx"; "jsx"; "py"; "rb"; "java"; "c"; "cpp"; "h";
    "hpp"; "cs"; "go"; "rs"; "swift"; "kt"; "scala"; "sh"; "bash"; "zsh";
    "ps1"; "bat"; "cmd"; "sql"; "graphql"; "vue"; "svelte"; "astro";
    "canvas"; "base" ].

(** [isTextFile(filePath)] *)
Definition isTextFile (filePath : string) : bool :=
  let ext := JS.toLowerCase (default "" (last (JS.split "." filePath))) in
  bool_decide (ext ∈ TEXT_FILE_EXTENSIONS).

(** [CACHE_TTL] *)
Definition CACHE_TTL : Z := 5 * 60 * 1000.

Record BlameCache := {
  result : P4BlameResult;
  cachedAt : Z;
}.

(** Where a call of [getBlame] stands. *)
Inductive Task :=
| AtIsFileInDepot (filePath : string)
    (* in [fetchBlame], at [await isFileInDepot(filePath)] *)
| AtAnnotate (filePath : string)
    (* in [fetchBlame], at [await annotate(filePath)] *)
| AtFetchDescriptions (filePath : string) (fetched : P4BlameResult)
    (* in [fetchBlame], at [await fetchDescriptions(result.lines)] *)
| AtCallback (filePath : string)
    (* in [getBlame], on the promise whose [resolve] is registered *)
| Resolved (value : option P4BlameResult).
    (* the promise returned by [getBlame] has resolved *)

(** The provider, the calls of [getBlame] by caller, and the log of the
    invocations of [p4Manager.annotate]. *)
Record Provider := {
  ready : bool;                              (* [plugin.p4Ready] *)
  cache : gmap string BlameCache;
  descriptionCache : gmap number string;
  pendingFetches : gset string;
  waitingCallbacks : gmap string (list nat); (* a callback is its caller *)
  tasks : gmap nat Task;
  annotateCalls : list string;
}.

Definition initial : Provider :=
  {| ready := true; cache := ∅; descriptionCache := ∅; pendingFetches := ∅;
     waitingCallbacks := ∅; tasks := ∅; annotateCalls := [] |}.

Definition set_task (id : nat) (t : Task) (p : Provider) : Provider :=
  {| ready := ready p; cache := cache p;
     descriptionCache := descriptionCache p;
     pendingFetches := pendingFetches p;
     waitingCallbacks := waitingCallbacks p;
     tasks := <[id := t]> (tasks p);
     annotateCalls := annotateCalls p |}.

(** [fetchBlame(filePath)] up to its first [await]. *)
Definition fetchBlame_start (id : nat) (filePath : string) (p : Provider)
    : Provider :=
  if negb (ready p) then set_task id (Resolved None) p
  else if negb (isTextFile filePath) then set_task id (Resolved None) p
  else set_task id (AtIsFileInDepot filePath) p.

(** [getBlame(filePath, forceRefresh)] up to its first suspension, at
    time [now]. *)
Definition getBlame (id : nat) (filePath : string) (forceRefresh : bool)
    (now : Z) (p : Provider) : Provider :=
  let fresh :=
    if forceRefresh then None
    else
      match cache p !! filePath with
      | Some cached =>
          if (now - cachedAt cached <? CACHE_TTL)%Z
          then Some (result cached) else None
      | None => None
      end in
  match fresh with
  | Some r => set_task id (Resolved (Some r)) p
  | None =>
      if bool_decide (filePath ∈ pendingFetches p) then
        let callbacks := default [] (waitingCallbacks p !! filePath) in
        {| ready := ready p; cache := cache p;
           descriptionCache := descriptionCache p;
           pendingFetches := pendingFetches p;
           waitingCallbacks :=
             <[filePath := callbacks ++ [id]]> (waitingCallbacks p);
           tasks := <[id := AtCallback filePath]> (tasks p);
           annotateCalls := annotateCalls p |}
      else fetchBlame_start id filePath p
  end.

(** [isFileInDepot] has returned: the fetch is registered as pending and
    [annotate] is invoked. *)
Definition afterIsFileInDepot (id : nat) (filePath : string)
    (isInDepot : bool) (p : Provider) : Provider :=
  if negb isInDepot then set_task id (Resolved None) p
  else
    {| ready := ready p; cache := cache p;
       descriptionCache := descriptionCache p;
       pendingFetches := {[filePath]} ∪ pendingFetches p;
       waitingCallbacks := waitingCallbacks p;
       tasks := <[id := AtAnnotate filePath]> (tasks p);
       annotateCalls := annotateCalls p ++ [filePath] |}.

(** The callbacks waiting for [filePath] are called with [value] and
    the list is dropped; [finally] takes the path out of the pending
    set; the fetching call itself resolves to [value]. *)
Definition finish (id : nat) (filePath : string)
    (value : option P4BlameResult) (cache' : gmap string BlameCache)
    (descriptions' : gmap number string) (p : Provider) : Provider :=
  let callbacks := default [] (waitingCallbacks p !! filePath) in
  {| ready := ready p; cache := cache';
     descriptionCache := descriptions';
     pendingFetches := pendingFetches p ∖ {[filePath]};
     waitingCallbacks := delete filePath (waitingCallbacks p);
     tasks :=
       <[id := Resolved value]>
         (foldl (fun m cb => <[cb := Resolved value]> m) (tasks p) callbacks);
     annotateCalls := annotateCalls p |}.

(** [annotate] has returned or thrown. *)
Definition afterAnnotate (id : nat) (filePath : string)
    (r : Res P4BlameResult) (p : Provider) : Provider :=
  match r with
  | Ok fetched => set_task id (AtFetchDescriptions filePath fetched) p
  | Err _ => finish id filePath None (cache p) (descriptionCache p) p
  end.

(** [fetchDescriptions] stores a description for every changelist of the
    lines that has none yet; [describe] is what [getChangelistDescription]
    answers ([""] on an error). *)
Definition fetchDescriptions (describe : number -> string)
    (lines : list P4BlameLine) (d : gmap number string) : gmap number string :=
  foldl
    (fun m line =>
       match d !! bl_changelist line with
       | Some _ => m
       | None => <[bl_changelist line := describe (bl_changelist line)]> m
       end)
    d lines.

Definition withDescription (d : gmap number string) (line : P4BlameLine)
    : P4BlameLine :=
  {| bl_lineNumber := bl_lineNumber line;
     bl_changelist := bl_changelist line;
     bl_user := bl_user line;
     bl_date := bl_date line;
     bl_content := bl_content line;
     bl_description := Some (JS.or_else (d !! bl_changelist line) "") |}.

(** [fetchDescriptions] has returned, at time [now]: the lines get their
    descriptions, the result is cached and handed to the callbacks. *)
Definition afterFetchDescriptions (id : nat) (filePath : string)
    (fetched : P4BlameResult) (describe : number -> string) (now : Z)
    (p : Provider) : Provider :=
  let d := fetchDescriptions describe (br_lines fetched) (descriptionCache p) in
  let r :=
    {| br_filePath := br_filePath fetched;
       br_lines := map (withDescription d) (br_lines fetched);
       br_fetchedAt := br_fetchedAt fetched |} in
  finish id filePath (Some r)
         (<[filePath := {| result := r; cachedAt := now |}]> (cache p)) d p.

(** What the world can do next. *)
Inductive Step :=
| Call (id : nat) (filePath : string) (forceRefresh : bool) (now : Z)
| IsFileInDepotReturns (id : nat) (isInDepot : bool)
| AnnotateReturns (id : nat) (r : Res P4BlameResult)
| FetchDescriptionsReturns (id : nat) (describe : number -> string) (now : Z).

(** One transition; a return for a call that is not waiting for it
    changes nothing. *)
Definition step (p : Provider) (st : Step) : Provider :=
  match st with
  | Call id filePath forceRefresh now => getBlame id filePath forceRefresh now p
  | IsFileInDepotReturns id isInDepot =>
      match tasks p !! id with
      | Some (AtIsFileInDepot filePath) => afterIsFileInDepot id filePath isInDepot p
      | _ => p
      end
  | AnnotateReturns id r =>
      match tasks p !! id with
      | Some (AtAnnotate filePath) => afterAnnotate id filePath r p
      | _ => p
      end
  | FetchDescriptionsReturns id describe now =>
      match tasks p !! id with
      | Some (AtFetchDescriptions filePath fetched) =>
          afterFetchDescriptions id filePath fetched describe now p
      | _ => p
      end
  end.

Definition run (schedule : list Step) (p : Provider) : Provider :=
  foldl step p schedule.

(** What a call of [getBlame] has resolved to, if it has. *)
Definition observed (p : Provider) (id : nat) : option (option P4BlameResult) :=
  match tasks p !! id with
  | Some (Resolved v) => Some v
  | _ => None
  end.

(** [isMarkdownFile(filePath)] *)
Definition isMarkdownFile (filePath : string) : bool :=
  let ext := JS.toLowerCase (default "" (last (JS.split "." filePath))) in
  String.eqb ext "md" || String.eqb ext "markdown".

(** [isEditableFile(filePath)] *)
Definition isEditableFile (filePath : string) : bool :=
  let ext := JS.toLowerCase (default "" (last (JS.split "." filePath))) in
  String.eqb ext "md" || String.eqb ext "markdown" || String.eqb ext "canvas".

(** [invalidate(filePath)] *)
Definition invalidate (filePath : string) (p : Provider) : Provider :=
  {| ready := ready p; cache := delete filePath (cache p);
     descriptionCache := descriptionCache p;
     pendingFetches := pendingFetches p;
     waitingCallbacks := waitingCallbacks p;
     tasks := tasks p;
     annotateCalls := annotateCalls p |}.

(** [invalidateAll()] *)
Definition invalidateAll (p : Provider) : Provider :=
  {| ready := ready p; cache := ∅;
     descriptionCache := ∅;
     pendingFetches := pendingFetches p;
     waitingCallbacks := waitingCallbacks p;
     tasks := tasks p;
     annotateCalls := annotateCalls p |}.

(** [isCached(filePath)], at time [now]. *)
Definition isCached (filePath : string) (now : Z) (p : Provider) : bool :=
  match cache p !! filePath with
  | Some cached => (now - cachedAt cached <? CACHE_TTL)%Z
  | None => false
  end.

(** The loop of [cleanup]: the entries are visited one by one and the old
    ones are deleted from the map. *)
Definition cleanupEntries (now : Z) (entries : list (string * BlameCache))
    (m : gmap string BlameCache) : gmap string BlameCache :=
  foldl
    (fun m entry =>
       if (now - cachedAt (snd entry) >? CACHE_TTL * 2)%Z
       then delete (fst entry) m else m)
    m entries.

(** [cleanup()], at time [now]. *)
Definition cleanup (now : Z) (p : Provider) : Provider :=
  {| ready := ready p;
     cache := cleanupEntries now (map_to_list (cache p)) (cache p);
     descriptionCache := descriptionCache p;
     pendingFetches := pendingFetches p;
     waitingCallbacks := waitingCallbacks p;
     tasks := tasks p;
     annotateCalls := annotateCalls p |}.

(** [getCacheStats()], at time [now]: [(count, oldestAge)]. *)
Definition getCacheStats (now : Z) (p : Provider) : nat * Z :=
  (size (cache p),
   foldl
     (fun oldestAge entry =>
        let age := (now - cachedAt (snd entry))%Z in
        if (age >? oldestAge)%Z then age else oldestAge)
     0%Z (map_to_list (cache p))).

End Blame.

(** * The vocabulary of the statements

    Concrete worlds, what a run leaves in the log, and the predicates the
    properties are stated with. *)

Global Instance ChangelistId_eq_dec : EqDecision ChangelistId.
Proof. solve_decision. Defined.

(** Concrete worlds, used to exercise the statements below. *)
Module Demo.

Definition lines (l : list string) : string := JS.join (String JS.LF "") l.

(** A tool that answers [info], [opened], [changes], [have] and [print],
    and cannot reach its server for anything else. *)
Definition exec (cmd : string) : ExecOutcome :=
  if JS.includes cmd " info" then Exited "I" ""
  else if JS.includes cmd " opened" then Exited (lines ["O1"; "O2"; "summary"]) ""
  else if JS.includes cmd " changes" then Exited (lines ["C1"; "C2"; "C3"]) ""
  else if JS.includes cmd " print" then Exited "depot text" ""
  else if JS.includes cmd " have" then Exited (lines ["O1"; "O2"]) ""
  else Failed None "Connect to server failed" false.

Definition parse (line : string) : option JsonObj :=
  if String.eqb line "I" then
    Some {[ "userName" := "joe"; "clientName" := "ws"; "clientRoot" := "/vault" ]}
  else if String.eqb line "O1" then
    Some {[ "clientFile" := "//ws/Notes/a.md"; "change" := "12"; "action" := "edit" ]}
  else if String.eqb line "O2" then
    Some {[ "clientFile" := "/other/b.md"; "change" := "default" ]}
  else if String.eqb line "C1" then Some {[ "change" := "12"; "desc" := " fix " ]}
  else if String.eqb line "C2" then Some {[ "change" := "default" ]}
  else if String.eqb line "C3" then Some {[ "change" := "0" ]}
  else None.

Definition env : Env :=
  {| p4Path := "p4"; vaultPath := "/vault"; cwd := "/home";
     execAsync := exec; JSON_parse := parse;
     write_error := fun _ _ => None; now := 1000 |}.

(** The same world with the server out of reach for every command. *)
Definition offline : Env :=
  {| p4Path := "p4"; vaultPath := "/vault"; cwd := "/home";
     execAsync := fun _ => Failed None "Connect to server failed" false;
     JSON_parse := parse;
     write_error := fun _ _ => None; now := 1000 |}.

(** A vault that cannot be written. *)
Definition readonly : Env :=
  {| p4Path := "p4"; vaultPath := "/vault"; cwd := "/home";
     execAsync := exec; JSON_parse := parse;
     write_error := fun _ _ => Some "EACCES: permission denied"; now := 1000 |}.

(** [notes/a.md] is known to be in the depot and nothing is opened. *)
Definition state : State :=
  {| info := None; p4Ready := true; cachedOpenedFiles := [];
     cachedDepotFiles := {[ "notes/a.md" ]};
     isRevertingFile := false; isResolvingMerge := false;
     vaultFiles := {[ "notes/a.md" := "edited text" ]}; events := [] |}.

Definition file : TFile := {| path := "notes/a.md"; name := "a.md" |}.

(** A workspace rooted at [/home] that holds the vault [/home/vault] and,
    next to it, the directory [/home/vault2]; one file of [vault2] is
    opened for edit. *)
Definition sibling : Env :=
  {| p4Path := "p4"; vaultPath := "/home/vault"; cwd := "/home";
     execAsync := fun cmd =>
       if JS.includes cmd " info" then Exited "I" "" else Exited "O" "";
     JSON_parse := fun line =>
       if String.eqb line "I" then
         Some {[ "userName" := "joe"; "clientName" := "ws";
                 "clientRoot" := "/home" ]}
       else if String.eqb line "O" then
         Some {[ "depotFile" := "//depot/vault2/b.md";
                 "clientFile" := "//ws/vault2/b.md";
                 "action" := "edit"; "change" := "12" ]}
       else None;
     write_error := fun _ _ => None; now := 1000 |}.

Definition sampleLine : string := "48: mord4r 2025/11/08  - fixed bug".

End Demo.

(** The state once an effect has been recorded. *)
Definition logged (e : Effect) (s : State) : State := snd (emit e s).

(** The command line [runP4] builds for [args]. *)
Definition cmdline (E : Env) (args : list string) : string :=
  quoted (p4Path E) +:+ " " +:+ JS.join " " args.

(** The entry is the default changelist. *)
Definition isDefault (c : P4Changelist) : bool :=
  bool_decide (cl_change c = Default).

(** The message of the validation error of [submit]. *)
Definition descriptionRequired : string :=
  "Description is required for default changelist".

(** The arguments of the conflict query of [getConflicts]. *)
Definition conflictQuery (E : Env) : list string :=
  ["resolve"; "-n"; quoted (JS.unbackslash (vaultPath E) +:+ "/...")].

(** The conflict query, or the info query that follows it, throws
    [message]. *)
Definition conflictQueryThrows (E : Env) (s : State) (message : string) : Prop :=
  fst (P4Manager.runP4Json E (conflictQuery E) s) = Err message
  \/ fst (P4Manager.infoOrGet E (snd (P4Manager.runP4Json E (conflictQuery E) s)))
     = Err message
     /\ exists results, fst (P4Manager.runP4Json E (conflictQuery E) s) = Ok results.

(** The arguments of the have query of [getHaveFiles]. *)
Definition haveQuery (E : Env) : list string :=
  ["have"; quoted (JS.unbackslash (vaultPath E) +:+ "/...")].

(** The have query, or the info query that follows it, throws. *)
Definition haveQueryThrows (E : Env) (s : State) (message : string) : Prop :=
  fst (P4Manager.runP4Json E (haveQuery E) s) = Err message
  \/ fst (P4Manager.infoOrGet E (snd (P4Manager.runP4Json E (haveQuery E) s)))
     = Err message
     /\ exists results, fst (P4Manager.runP4Json E (haveQuery E) s) = Ok results.

(** The command line of [resolve -ae] for [filePath]. *)
Definition resolveCmd (E : Env) (filePath : string) : string :=
  cmdline E ["resolve"; "-ae"; quoted (P4Manager.toAbsolutePath E filePath)].

(** The effects of [resolve] with [accept-merged]: the write of the
    merged content, if there is one, then the [resolve -ae] call unless
    the write threw. *)
Definition mergeEffects (E : Env) (filePath : string) (mergedContent : option string)
    : list Effect :=
  match mergedContent with
  | Some content =>
      WriteFile filePath content ::
      match write_error E filePath content with
      | None => [Spawn (resolveCmd E filePath)]
      | Some _ => []
      end
  | None => [Spawn (resolveCmd E filePath)]
  end.

(** The notifications shown between two states. *)
Definition notices (s s' : State) : list Effect :=
  List.filter is_notice (effects_of (new_events s s')).


(** [absolutePath] lies under the working-copy root, compared without
    regard to case after slash normalization of both paths. *)
Definition underRoot (E : Env) (absolutePath : string) : bool :=
  JS.startsWith (JS.toLowerCase (JS.unbackslash absolutePath))
                (JS.toLowerCase (JS.unbackslash (vaultPath E))).

(** The absolute path a record of the opened-files query translates to. *)
Definition translated (i : P4Info) (item : JsonObj) : string :=
  P4Manager.clientFileToAbsolute (JS.unbackslash (clientRoot i))
    (JS.or_else (item !! "clientFile") "").

(** [absolutePath] lies in a directory below the working-copy root:
    containment by path segments, without regard to case, slashes
    normalized. *)
Definition insideRoot (E : Env) (absolutePath : string) : bool :=
  Path.under (cwd E)
    (JS.toLowerCase (JS.unbackslash (vaultPath E)))
    (JS.toLowerCase (JS.unbackslash absolutePath)).

(** The character does not occur in the string. *)
Definition lacks (c : ascii) (s : string) : Prop := JS.indexOf c s = None.





(** Schedules of two calls of [getBlame] for one path. *)
Module BlameDemo.
Import Blame.

Definition fetched : P4BlameResult :=
  {| br_filePath := "a.md";
     br_lines := Annotate.parseOutput Demo.sampleLine;
     br_fetchedAt := 1000 |}.

Definition describe (n : number) : string := "fixed bug".

(** Two calls for [a.md] start back to back; then each call's depot
    check returns. *)
Definition racing : list Step :=
  [ Call 1 "a.md" false 1000; Call 2 "a.md" false 1000;
    IsFileInDepotReturns 1 true; IsFileInDepotReturns 2 true ].

(** The first fetch succeeds, the second one fails. *)
Definition racingOutcome : list Step :=
  [ AnnotateReturns 1 (Ok fetched);
    FetchDescriptionsReturns 1 describe 1200;
    AnnotateReturns 2 (Err "Connect to server failed") ].

(** The second call starts when the first one is already at
    [annotate]. *)
Definition joining : list Step :=
  [ Call 1 "a.md" false 1000; IsFileInDepotReturns 1 true;
    Call 2 "a.md" false 1000 ].
End BlameDemo.

(** Compute the events a run has added to the log. *)
Ltac new_events_simpl :=
  unfold new_events; simpl; rewrite <- ?app_assoc; rewrite drop_app_length; simpl.

(** A state with nothing in it.  What a call of the tool returns does not
    depend on the plugin state; it is read off here. *)
Definition blank : State :=
  {| info := None; p4Ready := false; cachedOpenedFiles := [];
     cachedDepotFiles := ∅; isRevertingFile := false;
     isResolvingMerge := false; vaultFiles := ∅; events := [] |}.

(** What a run returns or throws. *)
Definition outcome {A} (m : M A) : Res A := fst (m blank).

(** The opened-files query, or the info query that follows it, throws
    [message]. *)
Definition openedQueryThrows (E : Env) (s : State) (message : string) : Prop :=
  fst (P4Manager.runP4Json E ["opened"] s) = Err message
  \/ fst (P4Manager.infoOrGet E (snd (P4Manager.runP4Json E ["opened"] s)))
     = Err message
     /\ exists results, fst (P4Manager.runP4Json E ["opened"] s) = Ok results.


(** A changelist identifier an opened file or a pending changelist may
    carry besides [default]: a positive number. *)
Definition positiveChangelist (c : ChangelistId) : Prop :=
  exists n, c = Numbered (Some n) /\ (0 < n)%Z.

(** More concrete worlds. *)
Module Worlds.

(** The tool exits normally, prints nothing on its standard output and
    reports a missing file on its standard error. *)
Definition noSuchFile : Env :=
  {| p4Path := "p4"; vaultPath := "/vault"; cwd := "/home";
     execAsync := fun _ => Exited "" "//depot/x.md - No such file(s).";
     JSON_parse := fun _ => None;
     write_error := fun _ _ => None; now := 1000 |}.

End Worlds.

(** The stderr texts [isP4Error] looks for anywhere in the output. *)
Definition fatalPhrases : list string :=
  ["not logged in"; "connect to server failed"; "no such file"].

(** A line of a changelist spec that opens the description block. *)
Definition isDescriptionHeader (line : string) : bool :=
  JS.startsWith line "Description:".

(** A line that ends a description block: it does not start with a tab
    and is not blank. *)
Definition endsDescription (line : string) : bool :=
  negb (JS.startsWith line P4Manager.TAB) && negb (String.eqb (JS.trim line) "").

(** A line inside a description block: no header, and indented or blank. *)
Definition descriptionBody (line : string) : Prop :=
  isDescriptionHeader line = false /\ endsDescription line = false.

(** The lines of a changelist spec, as the tool prints it. *)
Definition sampleSpec : list string :=
  [ "# A Perforce Change Specification."; "";
    "Change:" +:+ P4Manager.TAB +:+ "12"; "";
    "Description:";
    P4Manager.TAB +:+ "old text"; P4Manager.TAB +:+ "more old text"; "";
    "Files:"; P4Manager.TAB +:+ "//depot/notes/a.md" ].

(** More concrete worlds: a tool that answers every command with one
    line of plain text. *)
Module Plain.

Definition env : Env :=
  {| p4Path := "p4"; vaultPath := "/vault"; cwd := "/home";
     execAsync := fun _ => Exited "Change 12 unknown." "";
     JSON_parse := fun _ => None;
     write_error := fun _ _ => None; now := 1000 |}.

(** [p4 change -i] accepts whatever it is given. *)
Definition changeIn (spec : string) : P4Manager.ChildExit :=
  P4Manager.Closed 0 "Change 12 updated." "".

End Plain.

(** A call returned rather than threw. *)
Definition succeeded {A} (r : Res A) : bool :=
  match r with Ok _ => true | Err _ => false end.

(** A call that returns nothing: its error, if any, is the tool's. *)
Definition discard {A} (r : Res A) : Res unit :=
  match r with Ok _ => Ok tt | Err e => Err e end.

(** The argument lists of the commands the file operations run. *)
Definition openedArgs (E : Env) (filePath : string) : list string :=
  ["opened"; quoted (P4Manager.toAbsolutePath E filePath)].
Definition editArgs (E : Env) (filePath : string) : list string :=
  ["edit"; quoted (P4Manager.toAbsolutePath E filePath)].
Definition addArgs (E : Env) (filePath : string) : list string :=
  ["add"; quoted (P4Manager.toAbsolutePath E filePath)].
Definition moveArgs (E : Env) (oldPath newPath : string) : list string :=
  ["move"; quoted (P4Manager.toAbsolutePath E oldPath);
   quoted (P4Manager.toAbsolutePath E newPath)].
Definition printArgs (E : Env) (filePath : string) : list string :=
  ["print"; "-q"; quoted (P4Manager.toAbsolutePath E filePath)].
Definition haveArgs (E : Env) (filePath : string) : list string :=
  ["have"; quoted (P4Manager.toAbsolutePath E filePath)].

(** The flag [resolve] passes for an action. *)
Definition resolveFlag (action : P4ResolveAction) : string :=
  match action with
  | AcceptYours => "-ay"
  | AcceptTheirs => "-at"
  | AcceptMerged => "-ae"
  | AcceptSafeMerge => "-as"
  end.

Definition resolveArgs (E : Env) (action : P4ResolveAction) (filePath : string)
    : list string :=
  ["resolve"; resolveFlag action; quoted (P4Manager.toAbsolutePath E filePath)].

(** The command a list of arguments is run as. *)
Definition spawned (E : Env) (args : list string) : Effect :=
  Spawn (cmdline E args).

(** The safe resolve of the file returns. *)
Definition safelyResolved (E : Env) (filePath : string) : bool :=
  succeeded (outcome (P4Manager.runP4 E (resolveArgs E AcceptSafeMerge filePath))).

(** The tool reports the file as opened: what [isFileOpened] answers. *)
Definition reportedOpened (E : Env) (filePath : string) : bool :=
  match outcome (P4Manager.isFileOpened E filePath) with
  | Ok b => b
  | Err _ => false
  end.

(** The value of a call, or a default when it throws. *)
Definition orDefault {A} (r : Res A) (d : A) : A :=
  match r with Ok a => a | Err _ => d end.

(** The arguments of the print of one revision of a file. *)
Definition printRevArgs (E : Env) (filePath : string) (rev : number)
    : list string :=
  ["print"; "-q";
   quoted (P4Manager.toAbsolutePath E filePath +:+ "#"
           +:+ P4Manager.number_toString rev)].

(** The ids under which a schedule calls [getBlame]. *)
Definition callIds (schedule : list Blame.Step) : list nat :=
  omap (fun st =>
          match st with
          | Blame.Call id _ _ _ => Some id
          | _ => None
          end) schedule.

(** A provider on which no call has been made yet. *)
Definition idle (p : Blame.Provider) : Prop :=
  Blame.tasks p = ∅ /\ Blame.pendingFetches p = ∅
  /\ Blame.waitingCallbacks p = ∅.

(** The call [f] is past [pendingFetches.add(filePath)] and has not
    finished. *)
Definition fetching (p : Blame.Provider) (f : nat) (filePath : string) : Prop :=
  Blame.tasks p !! f = Some (Blame.AtAnnotate filePath)
  \/ exists fetched,
       Blame.tasks p !! f = Some (Blame.AtFetchDescriptions filePath fetched).

(** The step [st] ends the fetch of [filePath] by [f]: [annotate] throws,
    or [fetchDescriptions] returns. *)
Definition completes (p : Blame.Provider) (f : nat) (filePath : string)
    (st : Blame.Step) : Prop :=
  (Blame.tasks p !! f = Some (Blame.AtAnnotate filePath)
   /\ exists message, st = Blame.AnnotateReturns f (Err message))
  \/ (exists fetched describe now,
        Blame.tasks p !! f = Some (Blame.AtFetchDescriptions filePath fetched)
        /\ st = Blame.FetchDescriptionsReturns f describe now).

(** How the tasks, the callback lists and the pending set hang together
    when every call has an id of its own, all of them among [ids]. *)
Definition consistent (ids : list nat) (p : Blame.Provider) : Prop :=
  (forall id t, Blame.tasks p !! id = Some t -> id ∈ ids)
  /\ (forall id filePath,
        Blame.tasks p !! id = Some (Blame.AtCallback filePath) ->
        exists l, Blame.waitingCallbacks p !! filePath = Some l /\ id ∈ l)
  /\ (forall filePath l id,
        Blame.waitingCallbacks p !! filePath = Some l -> id ∈ l ->
        Blame.tasks p !! id = Some (Blame.AtCallback filePath))
  /\ (forall filePath l,
        Blame.waitingCallbacks p !! filePath = Some l ->
        filePath ∈ Blame.pendingFetches p)
  /\ (forall filePath,
        filePath ∈ Blame.pendingFetches p -> exists f, fetching p f filePath).

(** A complete fetch of [filePath] by the call [id], forced at [t] and
    stored at [t0]. *)
Definition fullFetch (id : nat) (filePath : string) (t : Z)
    (fetched : P4BlameResult) (describe : number -> string) (t0 : Z)
    : list Blame.Step :=
  [ Blame.Call id filePath true t;
    Blame.IsFileInDepotReturns id true;
    Blame.AnnotateReturns id (Ok fetched);
    Blame.FetchDescriptionsReturns id describe t0 ].

(** A path as the two caches of the plugin compare it: forward slashes,
    lower case. *)
Definition spelled (filePath : string) : string :=
  JS.toLowerCase (JS.unbackslash filePath).

(** A file at the top of the vault, opened for edit. *)
Definition openedTopLevel : P4FileStatus :=
  {| fs_depotFile := "//depot/a.md"; fs_clientFile := "/vault/a.md";
     fs_vaultPath := "a.md"; fs_action := "edit"; fs_changelist := Default;
     fs_type := None; fs_rev := None; fs_haveRev := None |}.

(** The arguments of the describe query for a changelist. *)
Definition describeArgs (changelist : number) : list string :=
  ["describe"; "-s"; P4Manager.number_toString changelist].

(** * Properties *)

(** ** The annotate parser on the sample line *)

(** C7, as stated, fails: the parser does not give the sample line the
    content [fixed bug]; the dash after the date stays in the content. *)
Lemma annotate_sample_content_is_not_fixed_bug :
  Annotate.parseOutput Demo.sampleLine <>
  [ {| bl_lineNumber := 1; bl_changelist := Some 48%Z; bl_user := "mord4r";
       bl_date := Some "2025/11/08"; bl_content := "fixed bug";
       bl_description := None |} ].
Proof. vm_compute. discriminate. Qed.

(** C7, amended: the annotate parser maps the sample line to one blame
    line, numbered 1, with changelist 48, user [mord4r], date [2025/11/08]
    and content [- fixed bug]: only white space and colons are stripped
    in front of the content. *)
Theorem annotate_sample_line :
  Annotate.parseOutput Demo.sampleLine =
  [ {| bl_lineNumber := 1; bl_changelist := Some 48%Z; bl_user := "mord4r";
       bl_date := Some "2025/11/08"; bl_content := "- fixed bug";
       bl_description := None |} ].
Proof. vm_compute. reflexivity. Qed.

(** ** Running the tool: what a call leaves in the state *)

Lemma events_logged e s :
  events (logged e s)
  = events s ++ [{| effect := e; whileResolvingMerge := isResolvingMerge s |}].
Proof. reflexivity. Qed.

Lemma new_events_refl s : new_events s s = [].
Proof. unfold new_events. apply drop_all. Qed.

Lemma new_events_app s s' l :
  events s' = events s ++ l -> new_events s s' = l.
Proof. unfold new_events. intros ->. apply drop_app_length. Qed.

Section bridge.
Variable E : Env.

(** A call of the tool logs exactly its command line. *)
Lemma runP4_state args s :
  snd (P4Manager.runP4 E args s) = logged (Spawn (cmdline E args)) s.
Proof.
  unfold P4Manager.runP4, bind, cmdline. simpl.
  destruct (execAsync E _) as [out err | err msg [|]]; simpl;
    repeat match goal with |- context [if ?b then _ else _] => destruct b end;
    reflexivity.
Qed.

Lemma runP4Json_state args s :
  snd (P4Manager.runP4Json E args s)
  = logged (Spawn (cmdline E ("-Mj" :: "-ztag" :: args))) s.
Proof.
  unfold P4Manager.runP4Json, bind.
  pose proof (runP4_state ("-Mj" :: "-ztag" :: args) s) as H.
  destruct (P4Manager.runP4 E _ s) as [[out | e] s1]; simpl in *; subst; reflexivity.
Qed.
End bridge.

(** ** Pending changelists *)

Lemma toChangelist_numbered (items : list JsonObj) :
  Forall (fun c => cl_change c <> Default) (map P4Manager.toChangelist items).
Proof.
  induction items as [| item items IH]; simpl; constructor;
    [discriminate | exact IH].
Qed.

Lemma filter_none_default (l : list P4Changelist) :
  Forall (fun c => cl_change c <> Default) l -> List.filter isDefault l = [].
Proof.
  induction 1 as [| c l Hc _ IH]; simpl; [reflexivity |].
  unfold isDefault at 1. rewrite bool_decide_eq_false_2 by assumption. exact IH.
Qed.

(** C2: every list [getPendingChangelists] returns starts with the
    synthesized default changelist, no later entry is the default
    changelist, and so the default changelist occurs exactly once; this
    holds whatever records the tool returned. *)
Theorem getPendingChangelists_default_first E s l s' :
  P4Manager.getPendingChangelists E s = (Ok l, s') ->
  exists i rest,
    l = P4Manager.defaultChangelist i :: rest
    /\ Forall (fun c => cl_change c <> Default) rest
    /\ length (List.filter isDefault l) = 1.
Proof.
  unfold P4Manager.getPendingChangelists, bind, ret.
  destruct (P4Manager.infoOrGet E s) as [[i | e] s1]; [| discriminate].
  destruct (P4Manager.runP4Json E _ s1) as [[results | e] s2]; [| discriminate].
  intros [= <- <-]. exists i, (map P4Manager.toChangelist (filter P4Manager.isNumberedChange results)).
  split; [reflexivity |]. split; [apply toChangelist_numbered |].
  simpl. rewrite filter_none_default by apply toChangelist_numbered. reflexivity.
Qed.

Lemma getPendingChangelists_default_first_witness :
  exists l s',
    P4Manager.getPendingChangelists Demo.env Demo.state = (Ok l, s')
    /\ exists i rest,
        l = P4Manager.defaultChangelist i :: rest
        /\ Forall (fun c => cl_change c <> Default) rest
        /\ length (List.filter isDefault l) = 1.
Proof.
  eexists _, _. split.
  - vm_compute. reflexivity.
  - eapply (getPendingChangelists_default_first Demo.env Demo.state).
    vm_compute. reflexivity.
Defined.

(** ** Submit *)

(** C5: submitting the default changelist without a description (none, or
    the empty string) fails with the local validation error and leaves
    the state untouched, so no external process is spawned; submitting a
    numbered changelist ignores the description argument and runs
    [submit -c <number>]. *)
Theorem submit_default_requires_description E s :
  P4Manager.submit E Default None s = (Err descriptionRequired, s)
  /\ P4Manager.submit E Default (Some "") s = (Err descriptionRequired, s)
  /\ List.filter is_spawn
       (effects_of (new_events s (snd (P4Manager.submit E Default None s)))) = []
  /\ forall n d,
       P4Manager.submit E (Numbered n) d s = P4Manager.submit E (Numbered n) None s
       /\ effects_of (new_events s (snd (P4Manager.submit E (Numbered n) None s)))
          = [Spawn (cmdline E ["-Mj"; "-ztag"; "submit"; "-c";
                               P4Manager.number_toString n])].
Proof.
  repeat split; try reflexivity.
  - simpl. rewrite new_events_refl. reflexivity.
  - unfold P4Manager.submit, bind, ret. simpl.
    pose proof (runP4Json_state E ["submit"; "-c"; P4Manager.number_toString n] s) as H.
    destruct (P4Manager.runP4Json E _ s) as [[results | e] s1]; simpl in *; subst;
      erewrite new_events_app by apply events_logged; reflexivity.
Qed.

(** ** Conflicts *)

Section conflicts.
Variable E : Env.

(** [getConflicts] never throws. *)
Lemma getConflicts_total s :
  exists l, fst (P4Manager.getConflicts E s) = Ok l.
Proof.
  unfold P4Manager.getConflicts, try_catch, bind, ret.
  destruct (P4Manager.runP4Json E _ s) as [[results | e] s1].
  - destruct (P4Manager.infoOrGet E s1) as [[i | e] s2]; simpl.
    + eauto.
    + destruct (_ || _); simpl; eauto.
  - destruct (_ || _); simpl; eauto.
Qed.
End conflicts.

(** C4, as stated, fails: with the server out of reach the conflict query
    throws [Connect to server failed], which does not mention files to
    resolve, and [getConflicts] still returns the empty list instead of
    propagating the error. *)
Lemma getConflicts_swallows_connection_error :
  fst (P4Manager.runP4Json Demo.offline (conflictQuery Demo.offline) Demo.state)
  = Err "Connect to server failed"
  /\ JS.includes "Connect to server failed" "No file(s) to resolve" = false
  /\ JS.includes "Connect to server failed" "no file(s) to resolve" = false
  /\ fst (P4Manager.getConflicts Demo.offline Demo.state) = Ok [].
Proof. vm_compute. repeat split. Qed.

(** C4, amended: [getConflicts] returns the empty sequence, not an error,
    whenever the conflict query (or the info query after it) throws:
    both when the message reports [no file(s) to resolve] and for every
    other tool error; no error of the query reaches the caller. *)
Theorem getConflicts_error_is_empty E s message :
  conflictQueryThrows E s message ->
  fst (P4Manager.getConflicts E s) = Ok [].
Proof.
  unfold conflictQueryThrows, P4Manager.getConflicts, conflictQuery,
    try_catch, bind, ret.
  destruct (P4Manager.runP4Json E _ s) as [[results | e] s1]; simpl.
  - intros [H | [H _]]; [discriminate |].
    destruct (P4Manager.infoOrGet E s1) as [[i | e] s2]; simpl in *;
      [discriminate |].
    destruct (_ || _); reflexivity.
  - intros _. destruct (_ || _); reflexivity.
Qed.

Lemma getConflicts_error_is_empty_witness :
  conflictQueryThrows Demo.offline Demo.state "Connect to server failed"
  /\ fst (P4Manager.getConflicts Demo.offline Demo.state) = Ok [].
Proof.
  assert (H : conflictQueryThrows Demo.offline Demo.state "Connect to server failed")
    by (left; vm_compute; reflexivity).
  split; [exact H |].
  exact (getConflicts_error_is_empty Demo.offline Demo.state _ H).
Defined.

(** ** The tracked-path cache *)

Section have.
Variable E : Env.

(** [getHaveFiles] never throws. *)
Lemma getHaveFiles_total s :
  exists d, fst (P4Manager.getHaveFiles E s) = Ok d.
Proof.
  unfold P4Manager.getHaveFiles, try_catch, bind, ret.
  destruct (P4Manager.runP4Json E _ s) as [[results | e] s1]; simpl; eauto.
  destruct (P4Manager.infoOrGet E s1) as [[i | e] s2]; simpl; eauto.
Qed.

Lemma getHaveFiles_error s message :
  haveQueryThrows E s message ->
  fst (P4Manager.getHaveFiles E s) = Ok ∅.
Proof.
  unfold haveQueryThrows, P4Manager.getHaveFiles, haveQuery,
    try_catch, bind, ret.
  destruct (P4Manager.runP4Json E _ s) as [[results | e] s1]; simpl.
  - intros [H | [H _]]; [discriminate |].
    destruct (P4Manager.infoOrGet E s1) as [[i | e] s2]; simpl in *;
      [discriminate | reflexivity].
  - reflexivity.
Qed.

(** A refresh stores whatever [getHaveFiles] returned. *)
Lemma refreshDepotFilesCache_stores s :
  Ok (cachedDepotFiles (snd (Plugin.refreshDepotFilesCache E s)))
  = fst (P4Manager.getHaveFiles E s).
Proof.
  destruct (getHaveFiles_total s) as [d Hd].
  unfold Plugin.refreshDepotFilesCache, try_catch, bind, modify_state.
  destruct (P4Manager.getHaveFiles E s) as [[d' | e] s1]; simpl in *;
    [reflexivity | discriminate].
Qed.
End have.

Lemma isFileInDepotCache_empty s filePath :
  cachedDepotFiles s = ∅ -> Plugin.isFileInDepotCache s filePath = false.
Proof.
  intros H. unfold Plugin.isFileInDepotCache. rewrite H.
  rewrite !bool_decide_eq_false_2 by set_solver.
  rewrite elements_empty. reflexivity.
Qed.

(** C10: when the have query or the info query of [getHaveFiles] throws,
    [getHaveFiles] returns the empty set instead of the error; a refresh
    then leaves the tracked-path cache empty, and with that cache the
    write-block handler treats every file as untracked: it changes nothing,
    whatever the tool would answer, until a later refresh stores the set
    of a successful query. *)
Theorem getHaveFiles_error_is_empty E s message :
  haveQueryThrows E s message ->
  fst (P4Manager.getHaveFiles E s) = Ok ∅
  /\ let s' := snd (Plugin.refreshDepotFilesCache E s) in
     cachedDepotFiles s' = ∅
     /\ (forall E' file,
           Plugin.isFileInDepotCache s' (path file) = false
           /\ Plugin.handleFileModify E' file s' = (Ok tt, s'))
     /\ (forall E2 d,
           fst (P4Manager.getHaveFiles E2 s') = Ok d ->
           cachedDepotFiles (snd (Plugin.refreshDepotFilesCache E2 s')) = d).
Proof.
  intros H. pose proof (getHaveFiles_error E s message H) as Hempty.
  split; [exact Hempty |]. simpl.
  pose proof (refreshDepotFilesCache_stores E s) as Hst. rewrite Hempty in Hst.
  injection Hst as Hst.
  split; [exact Hst |]. split.
  - intros E' file. split; [apply isFileInDepotCache_empty, Hst |].
    unfold Plugin.handleFileModify, bind, get_state, ret.
    rewrite (isFileInDepotCache_empty _ _ Hst). simpl.
    destruct (isRevertingFile _ || isResolvingMerge _); reflexivity.
  - intros E2 d Hd.
    pose proof (refreshDepotFilesCache_stores E2 (snd (Plugin.refreshDepotFilesCache E s))) as H2.
    rewrite Hd in H2. injection H2 as H2. exact H2.
Qed.

Lemma getHaveFiles_error_is_empty_witness :
  haveQueryThrows Demo.offline Demo.state "Connect to server failed"
  /\ fst (P4Manager.getHaveFiles Demo.offline Demo.state) = Ok ∅.
Proof.
  assert (H : haveQueryThrows Demo.offline Demo.state "Connect to server failed")
    by (left; vm_compute; reflexivity).
  split; [exact H |].
  exact (proj1 (getHaveFiles_error_is_empty Demo.offline Demo.state _ H)).
Defined.

(** ** Merge resolution and the suppression flag *)

(** C9: after [resolve] with [accept-merged] the flag [isResolvingMerge]
    is false, whether the write of the merged content and the resolve
    call succeed or throw; the effects of the call (the write, then the
    resolve call) all happen while the flag is true; [isRevertingFile] is
    left as it was, so the first guard of the write-block handler is what
    it was before the call with the merge flag cleared. *)
Theorem resolve_accept_merged_resets_flag E s filePath mergedContent :
  let s' := snd (P4Manager.resolve E filePath AcceptMerged mergedContent s) in
  isResolvingMerge s' = false
  /\ Forall (fun ev => whileResolvingMerge ev = true) (new_events s s')
  /\ effects_of (new_events s s') = mergeEffects E filePath mergedContent
  /\ isRevertingFile s' || isResolvingMerge s' = isRevertingFile s.
Proof.
  unfold P4Manager.resolve, try_finally, bind, modify_state, ret, mergeEffects,
    resolveCmd.
  destruct mergedContent as [content |]; simpl.
  - unfold P4Manager.adapter_write, bind, emit, modify_state, throw. simpl.
    destruct (write_error E filePath content) as [msg |]; simpl.
    + new_events_simpl. rewrite orb_false_r. repeat split; repeat constructor.
    + match goal with |- context [P4Manager.runP4 E ?a ?st] =>
        pose proof (runP4_state E a st) as H;
        destruct (P4Manager.runP4 E a st) as [[out | e] s1]
      end; simpl in *; subst s1; new_events_simpl; rewrite orb_false_r;
        repeat split; repeat constructor.
  - match goal with |- context [P4Manager.runP4 E ?a ?st] =>
      pose proof (runP4_state E a st) as H;
      destruct (P4Manager.runP4 E a st) as [[out | e] s1]
    end; simpl in *; subst s1; new_events_simpl; rewrite orb_false_r;
      repeat split; repeat constructor.
Qed.

(** ** The write-block handler *)

Section guard.
Variable E : Env.



End guard.



(** In a vault that cannot be written the handler restores nothing and
    shows the [Cannot save] notification. *)
Example handleFileModify_readonly_vault :
  let s := Demo.state in
  let s' := snd (Plugin.handleFileModify Demo.readonly Demo.file s) in
  vaultFiles s' = vaultFiles s
  /\ notices s s' = [Notice (Plugin.cannotSaveText Demo.file)].
Proof. vm_compute. split; reflexivity. Qed.


(** ** Opened files and the working-copy root *)

Section strings.

Lemma map_chars_app f a b :
  JS.map_chars f (a +:+ b) = JS.map_chars f a +:+ JS.map_chars f b.
Proof. induction a as [| c a IH]; simpl; [reflexivity | now rewrite IH]. Qed.

Lemma prefix_app p s : String.prefix p s = true <-> exists t, s = p +:+ t.
Proof.
  revert s. induction p as [| a p IH]; intros s.
  - split; [intros _; exists s; reflexivity | intros _; now destruct s].
  - destruct s as [| b s]; simpl;
      [split; [discriminate | intros [t Ht]; discriminate] |].
    destruct (ascii_dec a b) as [-> | Hne].
    + rewrite IH. split; intros [t Ht]; exists t;
        [now rewrite Ht | now injection Ht].
    + split; [discriminate | intros [t Ht]; injection Ht as Hab _; congruence].
Qed.

Lemma prefix_map_chars f p s :
  String.prefix p s = true ->
  String.prefix (JS.map_chars f p) (JS.map_chars f s) = true.
Proof.
  rewrite !prefix_app. intros [t ->]. exists (JS.map_chars f t).
  apply map_chars_app.
Qed.

Lemma unbackslash_lower_char a :
  JS.unbackslash_char (JS.lower_char a) = JS.lower_char (JS.unbackslash_char a).
Proof. destruct a as [[] [] [] [] [] [] [] []]; reflexivity. Qed.

Lemma unbackslash_char_idem a :
  JS.unbackslash_char (JS.unbackslash_char a) = JS.unbackslash_char a.
Proof. destruct a as [[] [] [] [] [] [] [] []]; reflexivity. Qed.

Lemma unbackslash_toLowerCase s :
  JS.unbackslash (JS.toLowerCase s) = JS.toLowerCase (JS.unbackslash s).
Proof.
  induction s as [| a s IH]; simpl; [reflexivity |].
  unfold JS.unbackslash, JS.toLowerCase in *. simpl.
  now rewrite unbackslash_lower_char, IH.
Qed.

Lemma unbackslash_idem s : JS.unbackslash (JS.unbackslash s) = JS.unbackslash s.
Proof.
  induction s as [| a s IH]; simpl; [reflexivity |].
  unfold JS.unbackslash in *. simpl. now rewrite unbackslash_char_idem, IH.
Qed.
End strings.

Section opened.
Variable E : Env.

(** What the loop tests implies containment in the sense above. *)
Lemma kept_is_under absolutePath :
  JS.startsWith (JS.toLowerCase absolutePath) (P4Manager.vaultPathNormalized E) = true ->
  underRoot E absolutePath = true.
Proof.
  unfold underRoot, JS.startsWith, P4Manager.vaultPathNormalized. intros H.
  apply (prefix_map_chars JS.unbackslash_char) in H.
  fold (JS.unbackslash (JS.toLowerCase (JS.unbackslash (vaultPath E)))) in H.
  fold (JS.unbackslash (JS.toLowerCase absolutePath)) in H.
  rewrite !unbackslash_toLowerCase, unbackslash_idem in H. exact H.
Qed.

Lemma openedItem_outside i item :
  underRoot E (translated i item) = false -> P4Manager.openedItem E i item = None.
Proof.
  intros H. unfold P4Manager.openedItem. fold (translated i item).
  destruct (JS.startsWith _ _) eqn:Hs; [| reflexivity].
  apply kept_is_under in Hs. congruence.
Qed.

Lemma openedItem_inside i item fs :
  P4Manager.openedItem E i item = Some fs ->
  fs_clientFile fs = translated i item /\ underRoot E (fs_clientFile fs) = true.
Proof.
  unfold P4Manager.openedItem. fold (translated i item).
  destruct (JS.startsWith _ _) eqn:Hs; simpl; [| discriminate].
  intros [= <-]. simpl. split; [reflexivity | now apply kept_is_under].
Qed.
End opened.

(** What the loop of [getOpenedFiles] does guarantee, with containment
    read as a string prefix: a record whose translated absolute path does
    not start with the root (without regard to case, slashes normalized)
    produces no [FileStatus]; the list returned is empty or is made of the
    records of the query by that per-record step, in order; and the path
    of every [FileStatus] returned starts with the root in that sense. *)
Theorem getOpenedFiles_inside_root E s l s' :
  P4Manager.getOpenedFiles E s = (Ok l, s') ->
  (forall i item,
      underRoot E (translated i item) = false ->
      P4Manager.openedItem E i item = None)
  /\ (l = [] \/
      exists i results,
        fst (P4Manager.runP4Json E ["opened"] s) = Ok results
        /\ l = omap (P4Manager.openedItem E i) results)
  /\ Forall (fun fs => underRoot E (fs_clientFile fs) = true) l.
Proof.
  intros H. split; [intros i item; apply openedItem_outside |].
  assert (Hl : l = [] \/
      exists i results,
        fst (P4Manager.runP4Json E ["opened"] s) = Ok results
        /\ l = omap (P4Manager.openedItem E i) results).
  { revert H. unfold P4Manager.getOpenedFiles, try_catch, bind, ret, throw.
    destruct (P4Manager.runP4Json E _ s) as [[results | e] s1]; simpl.
    - destruct (P4Manager.infoOrGet E s1) as [[i | e] s2]; simpl.
      + intros [= <- <-]. right. exists i, results. split; reflexivity.
      + destruct (JS.includes e "not opened"); [| discriminate].
        intros [= <- <-]. now left.
    - destruct (JS.includes e "not opened"); [| discriminate].
      intros [= <- <-]. now left. }
  split; [exact Hl |].
  destruct Hl as [-> | (i & results & _ & ->)]; [constructor |].
  apply Forall_forall. intros fs Hin.
  apply list_elem_of_omap in Hin.
  destruct Hin as (item & _ & Hitem).
  now apply openedItem_inside in Hitem.
Qed.

Lemma getOpenedFiles_inside_root_witness :
  exists l s',
    P4Manager.getOpenedFiles Demo.env Demo.state = (Ok l, s')
    /\ length l = 1
    /\ Forall (fun fs => underRoot Demo.env (fs_clientFile fs) = true) l.
Proof.
  eexists _, _. split; [vm_compute; reflexivity |].
  split; [reflexivity |].
  eapply (getOpenedFiles_inside_root Demo.env Demo.state).
  vm_compute. reflexivity.
Defined.

(** C3, at its failing input: the vault is [/home/vault] and the
    opened-files query returns a record for [/home/vault2/b.md], a file of
    a directory next to the vault.  That path does not lie under the
    working-copy root, yet the record is not excluded: [getOpenedFiles]
    returns a [FileStatus] for it, whose vault path climbs out of the
    vault.  The test of the loop is a string prefix, which [/home/vault2]
    passes. *)
Theorem getOpenedFiles_keeps_sibling_directory :
  insideRoot Demo.sibling "/home/vault2/b.md" = false
  /\ underRoot Demo.sibling "/home/vault2/b.md" = true
  /\ fst (P4Manager.getOpenedFiles Demo.sibling Demo.state)
     = Ok [ {| fs_depotFile := "//depot/vault2/b.md";
               fs_clientFile := "/home/vault2/b.md";
               fs_vaultPath := "../vault2/b.md";
               fs_action := "edit";
               fs_changelist := Numbered (Some 12%Z);
               fs_type := None; fs_rev := None; fs_haveRev := None |} ].
Proof. vm_compute. repeat split. Qed.

(** ** Path translation *)

Section split_join.
Variable sep : ascii.

Lemma lacks_cons c a s :
  lacks c (String a s) <-> a <> c /\ lacks c s.
Proof.
  unfold lacks. simpl. destruct (Ascii.eqb_spec a c) as [-> | Hne].
  - split; [discriminate | intros [H _]; contradiction].
  - destruct (JS.indexOf c s); simpl; split; try discriminate; auto.
    intros [_ H]. discriminate.
Qed.

Lemma split_cons_shape s : exists h t, JS.split sep s = h :: t.
Proof.
  induction s as [| a s (h & t & IH)]; simpl; [eauto |].
  destruct (Ascii.eqb a sep); [eauto |]. rewrite IH. eauto.
Qed.

Lemma split_app_sep a b :
  JS.split sep (a +:+ String sep b) = JS.split sep a ++ JS.split sep b.
Proof.
  induction a as [| c a IH]; simpl.
  - now rewrite Ascii.eqb_refl.
  - destruct (Ascii.eqb c sep); [now rewrite IH |].
    rewrite IH. destruct (split_cons_shape a) as (h & t & ->). reflexivity.
Qed.

Lemma split_lacks s : lacks sep s -> JS.split sep s = [s].
Proof.
  induction s as [| a s IH]; [reflexivity |].
  rewrite lacks_cons. intros [Hne Hs]. simpl.
  destruct (Ascii.eqb_spec a sep) as [-> | _]; [contradiction |].
  now rewrite IH.
Qed.

Lemma split_all_lack s : Forall (lacks sep) (JS.split sep s).
Proof.
  induction s as [| a s IH]; simpl; [repeat constructor |].
  destruct (Ascii.eqb_spec a sep) as [-> | Hne].
  - constructor; [reflexivity | exact IH].
  - destruct (JS.split sep s) as [| h t]; [repeat constructor |].
    + apply lacks_cons. split; [exact Hne | reflexivity].
    + inversion IH; subst. constructor; [| assumption].
      apply lacks_cons. now split.
Qed.

Lemma split_join l :
  l <> [] -> Forall (lacks sep) l ->
  JS.split sep (JS.join (String sep "") l) = l.
Proof.
  induction l as [| x [| y l] IH]; intros Hne Hl; [contradiction | |].
  - simpl. apply split_lacks. now inversion Hl.
  - change (JS.join (String sep "") (x :: y :: l))
      with (x +:+ String sep (JS.join (String sep "") (y :: l))).
    rewrite split_app_sep. inversion Hl; subst.
    rewrite split_lacks by assumption. rewrite IH by (auto; discriminate).
    reflexivity.
Qed.

End split_join.


Section segments.











Lemma append_cons x a b : String x a +:+ b = String x (a +:+ b).
Proof. reflexivity. Qed.

Lemma append_assoc a b c : (a +:+ b) +:+ c = a +:+ (b +:+ c).
Proof.
  induction a as [| x a IH]; [reflexivity |].
  rewrite !append_cons. now f_equal.
Qed.



End segments.

Section roundtrip.
Variable E : Env.







End roundtrip.



(** ** The blame cache under concurrent calls *)

Section blame.
Import Blame.

Lemma notify_lookup (value : option P4BlameResult) (callbacks : list nat)
    (m : gmap nat Task) (k : nat) :
  foldl (fun m cb => <[cb := Resolved value]> m) m callbacks !! k
  = if bool_decide (k ∈ callbacks) then Some (Resolved value) else m !! k.
Proof.
  revert m. induction callbacks as [| cb callbacks IH]; intros m; simpl.
  - reflexivity.
  - rewrite IH. destruct (decide (k = cb)) as [-> | Hne].
    + rewrite lookup_insert_eq.
      rewrite (bool_decide_eq_true_2 (cb ∈ cb :: callbacks))
        by (apply elem_of_cons; now left).
      now destruct (bool_decide _).
    + rewrite lookup_insert_ne by congruence.
      destruct (decide (k ∈ callbacks)) as [Hin | Hnin].
      * rewrite !bool_decide_eq_true_2
          by (assumption || (apply elem_of_cons; now right)).
        reflexivity.
      * rewrite !bool_decide_eq_false_2
          by (assumption || (apply not_elem_of_cons; now split)).
        reflexivity.
Qed.

Lemma notified (value : option P4BlameResult) (cbs : list nat)
    (m : gmap nat Task) (id1 id2 : nat) :
  id1 <> id2 ->
  <[id1 := Resolved value]>
    (foldl (fun m cb => <[cb := Resolved value]> m) m (cbs ++ [id2])) !! id2
  = Some (Resolved value).
Proof.
  intros Hne. rewrite lookup_insert_ne by congruence. rewrite notify_lookup.
  rewrite bool_decide_eq_true_2; [reflexivity |].
  apply elem_of_app. right. now apply list_elem_of_singleton.
Qed.

(** A call that finds the path in the pending set starts no fetch of its
    own: it registers a callback, and when the pending fetch finishes,
    with a result or with an error, it observes what the fetching call
    observes, and [annotate] has not been invoked again. *)
Lemma getBlame_joins_pending_fetch p id1 id2 filePath now :
  id1 <> id2 ->
  tasks p !! id1 = Some (AtAnnotate filePath) ->
  filePath ∈ pendingFetches p ->
  cache p !! filePath = None ->
  let p1 := step p (Call id2 filePath false now) in
  annotateCalls p1 = annotateCalls p
  /\ tasks p1 !! id2 = Some (AtCallback filePath)
  /\ (forall message,
        let p2 := step p1 (AnnotateReturns id1 (Err message)) in
        annotateCalls p2 = annotateCalls p
        /\ observed p2 id1 = Some None /\ observed p2 id2 = Some None)
  /\ (forall fetched describe now',
        let p2 := run [AnnotateReturns id1 (Ok fetched);
                       FetchDescriptionsReturns id1 describe now'] p1 in
        annotateCalls p2 = annotateCalls p
        /\ exists r, observed p2 id1 = Some (Some r)
                     /\ observed p2 id2 = Some (Some r)).
Proof.
  intros Hne Ht Hpend Hcache. simpl. unfold getBlame.
  rewrite Hcache. rewrite bool_decide_eq_true_2 by assumption.
  split; [reflexivity |]. split; [simpl; apply lookup_insert_eq |].
  split.
  - intros message. simpl. rewrite lookup_insert_ne by congruence.
    rewrite Ht. unfold afterAnnotate, finish, observed. simpl.
    rewrite !lookup_insert_eq. simpl. rewrite notified by assumption.
    repeat split.
  - intros fetched describe now'. unfold run. simpl.
    rewrite lookup_insert_ne by congruence.
    rewrite Ht. unfold afterAnnotate. simpl.
    rewrite lookup_insert_eq. unfold afterFetchDescriptions, finish, observed.
    simpl. rewrite !lookup_insert_eq. simpl. rewrite notified by assumption.
    split; [reflexivity |]. eexists. split; reflexivity.
Qed.
End blame.

(** C6, at its failing input: two calls of [getBlame] for [a.md], the
    second issued while the first is still at its depot check (so before
    the first call's fetch resolves, and before that fetch is registered as
    pending).  Both calls reach [annotate]: it is invoked twice.  When
    the first fetch then succeeds and the second one fails, the two
    callers observe different results. *)
Theorem concurrent_getBlame_fetches_twice :
  let p := Blame.run BlameDemo.racing Blame.initial in
  Blame.tasks (Blame.run (take 2 BlameDemo.racing) Blame.initial) !! 1%nat
    = Some (Blame.AtIsFileInDepot "a.md")
  /\ Blame.tasks p !! 1%nat = Some (Blame.AtAnnotate "a.md")
  /\ Blame.tasks p !! 2%nat = Some (Blame.AtAnnotate "a.md")
  /\ Blame.annotateCalls p = ["a.md"; "a.md"]
  /\ let p' := Blame.run BlameDemo.racingOutcome p in
     Blame.annotateCalls p' = ["a.md"; "a.md"]
     /\ (exists r, Blame.observed p' 1 = Some (Some r))
     /\ Blame.observed p' 2 = Some None.
Proof. vm_compute. repeat split. eexists. reflexivity. Qed.

(** The same two calls, the second issued once the first is at
    [annotate]: one invocation, and the second call waits on a callback. *)
Lemma getBlame_joining_fetches_once :
  let p := Blame.run BlameDemo.joining Blame.initial in
  Blame.annotateCalls p = ["a.md"]
  /\ Blame.tasks p !! 2%nat = Some (Blame.AtCallback "a.md").
Proof. vm_compute. repeat split. Qed.


(** * Further properties of the command bridge and the repository model *)

(** ** Structured output *)



(** ** Opened files *)

(** X2: when the opened-files query (or the info query after it) throws,
    [getOpenedFiles] returns the empty list if the message mentions
    [not opened], and otherwise throws that same message. *)
Theorem getOpenedFiles_error E s message :
  openedQueryThrows E s message ->
  fst (P4Manager.getOpenedFiles E s)
  = if JS.includes message "not opened" then Ok [] else Err message.
Proof.
  unfold openedQueryThrows, P4Manager.getOpenedFiles, try_catch, bind, ret, throw.
  destruct (P4Manager.runP4Json E _ s) as [[results | e] s1]; simpl.
  - intros [H | [H _]]; [discriminate |].
    destruct (P4Manager.infoOrGet E s1) as [[i | e] s2]; simpl in *;
      [discriminate |].
    injection H as ->. now destruct (JS.includes message "not opened").
  - intros [H | [_ [r Hr]]]; [| discriminate].
    injection H as ->. now destruct (JS.includes message "not opened").
Qed.

Lemma getOpenedFiles_error_witness :
  fst (P4Manager.getOpenedFiles Demo.offline Demo.state)
  = Err "Connect to server failed".
Proof.
  apply (getOpenedFiles_error Demo.offline Demo.state "Connect to server failed").
  left. vm_compute. reflexivity.
Defined.

Lemma openedChangelist_positive change :
  P4Manager.openedChangelist change = Default
  \/ positiveChangelist (P4Manager.openedChangelist change).
Proof.
  unfold P4Manager.openedChangelist.
  destruct (_ && _); [| now left].
  destruct (JS.parseInt _) as [parsed |]; [| now left].
  destruct (0 <? parsed)%Z eqn:Hpos; [| now left].
  right. exists parsed. split; [reflexivity | now apply Z.ltb_lt].
Qed.

(** X3: the changelist of every [FileStatus] that [getOpenedFiles] returns
    is [default] or a positive number; a [change] field that does not
    parse, or parses to zero or below, never yields a number. *)
Theorem getOpenedFiles_changelist E s l s' :
  P4Manager.getOpenedFiles E s = (Ok l, s') ->
  Forall (fun fs => fs_changelist fs = Default
                    \/ positiveChangelist (fs_changelist fs)) l.
Proof.
  intros H. destruct (getOpenedFiles_inside_root E s l s' H) as (_ & Hl & _).
  destruct Hl as [-> | (i & results & _ & ->)]; [constructor |].
  apply Forall_forall. intros fs Hin.
  apply list_elem_of_omap in Hin as (item & _ & Hitem).
  unfold P4Manager.openedItem in Hitem.
  destruct (negb _); [discriminate |]. injection Hitem as <-. simpl.
  apply openedChangelist_positive.
Qed.

Lemma getOpenedFiles_changelist_witness :
  exists l s',
    P4Manager.getOpenedFiles Demo.env Demo.state = (Ok l, s')
    /\ map fs_changelist l = [Numbered (Some 12%Z)]
    /\ Forall (fun fs => fs_changelist fs = Default
                         \/ positiveChangelist (fs_changelist fs)) l.
Proof.
  eexists _, _. split; [vm_compute; reflexivity |]. split; [reflexivity |].
  eapply (getOpenedFiles_changelist Demo.env Demo.state).
  vm_compute. reflexivity.
Defined.

(** ** Pending changelists *)

(** X4: behind the default changelist, every entry that
    [getPendingChangelists] returns is pending and carries a positive
    number: records whose [change] is missing, does not parse, or is not
    positive are left out. *)
Theorem getPendingChangelists_numbered E s l s' :
  P4Manager.getPendingChangelists E s = (Ok l, s') ->
  Forall (fun c => positiveChangelist (cl_change c) /\ cl_status c = Pending)
         (tail l).
Proof.
  unfold P4Manager.getPendingChangelists, bind, ret.
  destruct (P4Manager.infoOrGet E s) as [[i | e] s1]; [| discriminate].
  destruct (P4Manager.runP4Json E _ s1) as [[results | e] s2]; [| discriminate].
  intros [= <- <-]. simpl. apply Forall_forall. intros c Hc.
  apply list_elem_of_fmap in Hc as (item & -> & Hitem).
  apply list_elem_of_filter in Hitem as [Hnum _].
  unfold P4Manager.isNumberedChange in Hnum. unfold P4Manager.toChangelist. simpl.
  destruct (JS.truthy_opt _); [| contradiction]. simpl in Hnum.
  destruct (JS.parseInt _) as [n |]; [| contradiction].
  split; [| reflexivity]. exists n. split; [reflexivity |].
  apply Z.ltb_lt. now apply Is_true_true.
Qed.

Lemma getPendingChangelists_numbered_witness :
  exists l s',
    P4Manager.getPendingChangelists Demo.env Demo.state = (Ok l, s')
    /\ length l = 2
    /\ Forall (fun c => positiveChangelist (cl_change c) /\ cl_status c = Pending)
              (tail l).
Proof.
  eexists _, _. split; [vm_compute; reflexivity |]. split; [reflexivity |].
  eapply (getPendingChangelists_numbered Demo.env Demo.state).
  vm_compute. reflexivity.
Defined.

(** ** Client paths *)

Lemma indexOf_app_lacks c u v :
  lacks c u -> JS.indexOf c (u +:+ String c v) = Some (String.length u).
Proof.
  induction u as [| a u IH]; intros Hu.
  - simpl. now rewrite Ascii.eqb_refl.
  - apply lacks_cons in Hu as [Hne Hu]. rewrite append_cons. simpl.
    destruct (Ascii.eqb_spec a c) as [-> | _]; [contradiction |].
    now rewrite IH.
Qed.

Lemma drop_app_sep u c v :
  JS.drop (String.length u + 1) (u +:+ String c v) = v.
Proof. induction u as [| a u IH]; [reflexivity | exact IH]. Qed.

(** X5: a client path [//name/rest] translates to the client root
    followed by [/rest], whatever the client name is; a client path that
    is only [//name], with no slash after the name, is left as it is. *)
Theorem clientFileToAbsolute_any_client clientRoot name rest :
  lacks JS.slash name ->
  P4Manager.clientFileToAbsolute clientRoot ("//" +:+ name +:+ "/" +:+ rest)
  = clientRoot +:+ "/" +:+ rest
  /\ P4Manager.clientFileToAbsolute clientRoot ("//" +:+ name) = "//" +:+ name.
Proof.
  intros Hname. unfold P4Manager.clientFileToAbsolute, JS.substring_from. split.
  - change ("//" +:+ name +:+ "/" +:+ rest)
      with (String "/" (String "/" (name +:+ String JS.slash rest))).
    change (JS.startsWith (String "/" (String "/" (name +:+ String JS.slash rest))) "//")
      with (String.prefix "" (name +:+ String JS.slash rest)).
    replace (String.prefix "" (name +:+ String JS.slash rest)) with true
      by (now destruct (name +:+ String JS.slash rest)).
    change (JS.drop 2 (String "/" (String "/" (name +:+ String JS.slash rest))))
      with (name +:+ String JS.slash rest).
    rewrite indexOf_app_lacks by assumption.
    now rewrite drop_app_sep.
  - change ("//" +:+ name) with (String "/" (String "/" name)).
    change (JS.startsWith (String "/" (String "/" name)) "//")
      with (String.prefix "" name).
    replace (String.prefix "" name) with true by (now destruct name).
    change (JS.drop 2 (String "/" (String "/" name))) with name.
    unfold lacks in Hname. now rewrite Hname.
Qed.

Lemma clientFileToAbsolute_any_client_witness :
  P4Manager.clientFileToAbsolute "C:/ws" "//other-client/Notes/a.md"
  = "C:/ws/Notes/a.md".
Proof.
  apply (clientFileToAbsolute_any_client "C:/ws" "other-client" "Notes/a.md").
  reflexivity.
Defined.

(** ** Fatal text on the standard error *)

Section literal_search.
Variable input : string.
Variable multiline : bool.

Lemma run_lit_prefix {R} w t pos caps
    (k : nat -> string -> Regex.captures -> option R) :
  w <> "" ->
  Regex.run input multiline (Regex.lit w) pos (w +:+ t) caps k
  = k (pos + String.length w)%nat t caps.
Proof.
  revert pos. induction w as [| a w IH]; intros pos Hne; [contradiction |].
  destruct w as [| b w].
  - simpl. rewrite Ascii.eqb_refl. f_equal. lia.
  - change (Regex.lit (String a (String b w)))
      with (Regex.Seq (Regex.Chr (Regex.CLit a)) (Regex.lit (String b w))).
    rewrite append_cons. simpl Regex.run. rewrite Ascii.eqb_refl.
    rewrite IH by discriminate. f_equal. simpl. lia.
Qed.

Lemma search_lit_includes w pos s :
  w <> "" -> JS.includes s w = true ->
  is_Some (Regex.search_from input multiline (Regex.lit w) pos s).
Proof.
  intros Hne. revert pos. induction s as [| a s IH]; intros pos Hin.
  - destruct w; [contradiction | discriminate].
  - change (JS.includes (String a s) w)
      with (String.prefix w (String a s) || JS.includes s w) in Hin.
    apply orb_true_iff in Hin as [Hpre | Hin].
    + apply prefix_app in Hpre as [t Ht]. simpl. rewrite Ht.
      rewrite run_lit_prefix by assumption. eauto.
    + simpl. destruct (Regex.run _ _ _ _ _ _ _); [eauto | now apply IH].
Qed.
End literal_search.

Lemma includes_not_empty s w : w <> "" -> JS.includes s w = true -> s <> "".
Proof.
  intros Hne Hin ->. destruct w; [contradiction | discriminate].
Qed.

Lemma toLowerCase_empty s : JS.toLowerCase s = "" -> s = "".
Proof. destruct s; [reflexivity | discriminate]. Qed.

Lemma isP4Error_phrase stderr w :
  w ∈ fatalPhrases -> JS.includes (JS.toLowerCase stderr) w = true ->
  P4Manager.isP4Error stderr = true.
Proof.
  intros Hw Hin.
  assert (Hne : w <> "").
  { unfold fatalPhrases in Hw. intros ->.
    repeat (apply elem_of_cons in Hw as [Hw | Hw]; [discriminate |]).
    inversion Hw. }
  assert (Htest : Regex.test_i false (Regex.lit w) stderr = true).
  { unfold Regex.test_i, Regex.test, Regex.exec.
    apply bool_decide_eq_true. now apply search_lit_includes. }
  unfold P4Manager.isP4Error, P4Manager.errorPatterns. cbn [existsb].
  unfold fatalPhrases in Hw.
  repeat (apply elem_of_cons in Hw as [-> | Hw];
          [rewrite Htest; now rewrite ?orb_true_r |]).
  inversion Hw.
Qed.

(** X6: when a command exits normally but its standard error mentions, in
    any letter case, [not logged in], [connect to server failed] or
    [no such file], [runP4] throws the standard error text as it is,
    whatever the standard output holds. *)
Theorem runP4_fatal_stderr E args s stdout stderr w :
  w ∈ fatalPhrases ->
  JS.includes (JS.toLowerCase stderr) w = true ->
  execAsync E (cmdline E args) = Exited stdout stderr ->
  fst (P4Manager.runP4 E args s) = Err stderr.
Proof.
  intros Hw Hin Hexec.
  assert (Hne : stderr <> "").
  { intros ->. unfold fatalPhrases in Hw.
    repeat (apply elem_of_cons in Hw as [-> | Hw]; [discriminate |]).
    inversion Hw. }
  unfold P4Manager.runP4, bind. simpl. fold (cmdline E args). rewrite Hexec.
  unfold JS.truthy. apply String.eqb_neq in Hne. rewrite Hne. simpl.
  now rewrite (isP4Error_phrase stderr w).
Qed.

Lemma runP4_fatal_stderr_witness :
  fst (P4Manager.runP4 Worlds.noSuchFile ["files"; "x.md"] Demo.state)
  = Err "//depot/x.md - No such file(s).".
Proof.
  apply (runP4_fatal_stderr Worlds.noSuchFile ["files"; "x.md"] Demo.state ""
           "//depot/x.md - No such file(s)." "no such file").
  - unfold fatalPhrases. repeat constructor.
  - vm_compute. reflexivity.
  - reflexivity.
Defined.

(** ** Rewriting the description of a changelist spec *)

Section splice.
Variable d : string.

Lemma splice_header line rest i a :
  isDescriptionHeader line = true ->
  P4Manager.spliceLines d (line :: rest) i a
  = ("Description:" :: P4Manager.descriptionLines d
       ++ fst (P4Manager.spliceLines d rest true true),
     snd (P4Manager.spliceLines d rest true true)).
Proof.
  unfold isDescriptionHeader. intros H. simpl. rewrite H.
  now destruct (P4Manager.spliceLines d rest true true).
Qed.

Lemma splice_copy line rest i a :
  isDescriptionHeader line = false ->
  i = false \/ endsDescription line = true ->
  P4Manager.spliceLines d (line :: rest) i a
  = (line :: fst (P4Manager.spliceLines d rest false a),
     snd (P4Manager.spliceLines d rest false a)).
Proof.
  unfold isDescriptionHeader, endsDescription. intros H Hc. simpl. rewrite H.
  destruct i.
  - destruct Hc as [Hc | Hc]; [discriminate |]. rewrite Hc.
    now destruct (P4Manager.spliceLines d rest false a).
  - now destruct (P4Manager.spliceLines d rest false a).
Qed.

Lemma splice_skip line rest a :
  descriptionBody line ->
  P4Manager.spliceLines d (line :: rest) true a
  = P4Manager.spliceLines d rest true a.
Proof.
  unfold descriptionBody, isDescriptionHeader, endsDescription.
  intros [H Hs]. simpl. now rewrite H, Hs.
Qed.

(** The flag returned: a header was seen, now or before. *)
Lemma splice_added lines i a :
  snd (P4Manager.spliceLines d lines i a)
  = a || existsb isDescriptionHeader lines.
Proof.
  revert i a. induction lines as [| line rest IH]; intros i a.
  - simpl. now rewrite orb_false_r.
  - cbn [existsb]. destruct (isDescriptionHeader line) eqn:Hh.
    + rewrite splice_header by assumption. simpl. rewrite IH. simpl.
      now rewrite orb_true_r.
    + destruct i; [destruct (endsDescription line) eqn:He |].
      * rewrite splice_copy by auto. simpl. apply IH.
      * rewrite splice_skip by (split; assumption). apply IH.
      * rewrite splice_copy by auto. simpl. apply IH.
Qed.

(** Outside a description block, lines without a header are copied. *)
Lemma splice_no_header lines a :
  existsb isDescriptionHeader lines = false ->
  P4Manager.spliceLines d lines false a = (lines, a).
Proof.
  induction lines as [| line rest IH]; [reflexivity |].
  cbn [existsb]. intros H. apply orb_false_iff in H as [Hl Hr].
  rewrite splice_copy by auto. now rewrite IH.
Qed.

Lemma splice_prefix pre rest a :
  existsb isDescriptionHeader pre = false ->
  P4Manager.spliceLines d (pre ++ rest) false a
  = (pre ++ fst (P4Manager.spliceLines d rest false a),
     snd (P4Manager.spliceLines d rest false a)).
Proof.
  induction pre as [| line pre IH]; intros H.
  - simpl. now destruct (P4Manager.spliceLines d rest false a).
  - cbn [existsb] in H. apply orb_false_iff in H as [Hl Hr].
    rewrite <- app_comm_cons, splice_copy by auto. now rewrite IH.
Qed.

(** Inside a description block, indented and blank lines are dropped. *)
Lemma splice_body old rest a :
  Forall descriptionBody old ->
  P4Manager.spliceLines d (old ++ rest) true a
  = P4Manager.spliceLines d rest true a.
Proof.
  induction 1 as [| line old Hl _ IH]; [reflexivity |].
  rewrite <- app_comm_cons, splice_skip by assumption. exact IH.
Qed.

Lemma descriptionLines_body d' :
  Forall descriptionBody (P4Manager.descriptionLines d').
Proof.
  unfold P4Manager.descriptionLines. apply Forall_forall. intros line Hin.
  apply list_elem_of_fmap in Hin as (l & -> & _).
  split; [reflexivity |]. unfold endsDescription.
  change (JS.startsWith (P4Manager.TAB +:+ l) P4Manager.TAB)
    with (String.prefix "" l).
  now destruct l.
Qed.
End splice.

(** The rewrite on a spec cut into its parts: what comes before the
    header, the header, the old description, and what follows. *)
Lemma spliceLines_shape d pre header old rest :
  existsb isDescriptionHeader pre = false ->
  isDescriptionHeader header = true ->
  Forall descriptionBody old ->
  existsb isDescriptionHeader rest = false ->
  match rest with [] => True | line :: _ => endsDescription line = true end ->
  P4Manager.spliceLines d (pre ++ header :: old ++ rest) false false
  = (pre ++ "Description:" :: P4Manager.descriptionLines d ++ rest, true).
Proof.
  intros Hpre Hh Hold Hrest Hfirst.
  rewrite splice_prefix by assumption.
  rewrite splice_header by assumption. simpl.
  rewrite splice_body by assumption.
  destruct rest as [| line rest]; [reflexivity |].
  cbn [existsb] in Hrest. apply orb_false_iff in Hrest as [Hl Hr].
  rewrite splice_copy by auto. simpl.
  now rewrite splice_no_header.
Qed.

(** X7: [updateChangelistDescription] rewrites the description block and
    nothing else.  For a spec made of lines without a header, then a
    header line, then indented or blank lines, then lines without a
    header the first of which is neither indented nor blank, the new
    lines are: the first part as it was, the bare header [Description:],
    the lines of the new description behind a tab each, and the last part
    as it was. *)
Theorem spliceLines_rewrites_block d pre header old rest :
  existsb isDescriptionHeader pre = false ->
  isDescriptionHeader header = true ->
  Forall descriptionBody old ->
  existsb isDescriptionHeader rest = false ->
  match rest with [] => True | line :: _ => endsDescription line = true end ->
  P4Manager.spliceLines d (pre ++ header :: old ++ rest) false false
  = (pre ++ "Description:" :: P4Manager.descriptionLines d ++ rest, true).
Proof.
  apply spliceLines_shape.
Qed.

Lemma spliceLines_rewrites_block_witness :
  P4Manager.spliceLines "new text" sampleSpec false false
  = (take 4 sampleSpec
     ++ "Description:" :: P4Manager.descriptionLines "new text"
     ++ drop 8 sampleSpec, true).
Proof.
  apply (spliceLines_rewrites_block "new text" (take 4 sampleSpec)
           "Description:" (take 3 (drop 5 sampleSpec)) (drop 8 sampleSpec)).
  - reflexivity.
  - reflexivity.
  - repeat constructor.
  - reflexivity.
  - reflexivity.
Defined.

Section splice_twice.
Variable d : string.

Lemma splice_idempotent_lines lines i a a' :
  fst (P4Manager.spliceLines d (fst (P4Manager.spliceLines d lines i a)) i a')
  = fst (P4Manager.spliceLines d lines i a).
Proof.
  revert i a a'. induction lines as [| line rest IH]; intros i a a';
    [reflexivity |].
  destruct (isDescriptionHeader line) eqn:Hh.
  - rewrite (splice_header d line) by assumption. cbn [fst].
    rewrite splice_header by reflexivity. cbn [fst].
    rewrite splice_body by apply descriptionLines_body. now rewrite IH.
  - destruct i; [destruct (endsDescription line) eqn:He |].
    + rewrite (splice_copy d line) by auto. cbn [fst].
      rewrite splice_copy by auto. cbn [fst]. now rewrite IH.
    + rewrite (splice_skip d line) by (split; assumption). apply IH.
    + rewrite (splice_copy d line) by auto. cbn [fst].
      rewrite splice_copy by auto. cbn [fst]. now rewrite IH.
Qed.

Lemma splice_keeps_header lines i a :
  existsb isDescriptionHeader (fst (P4Manager.spliceLines d lines i a))
  = existsb isDescriptionHeader lines.
Proof.
  revert i a. induction lines as [| line rest IH]; intros i a; [reflexivity |].
  cbn [existsb]. destruct (isDescriptionHeader line) eqn:Hh.
  - rewrite splice_header by assumption. reflexivity.
  - destruct i; [destruct (endsDescription line) eqn:He |].
    + rewrite splice_copy by auto. cbn [fst]. cbn [existsb].
      now rewrite Hh, IH.
    + rewrite splice_skip by (split; assumption). now rewrite IH.
    + rewrite splice_copy by auto. cbn [fst]. cbn [existsb].
      now rewrite Hh, IH.
Qed.

Lemma descriptionLines_lack_LF : Forall (lacks JS.LF) (P4Manager.descriptionLines d).
Proof.
  unfold P4Manager.descriptionLines. apply Forall_forall. intros line Hin.
  apply list_elem_of_fmap in Hin as (l & -> & Hl).
  pose proof (split_all_lack JS.LF d) as Hall.
  rewrite Forall_forall in Hall. specialize (Hall l Hl).
  apply lacks_cons. split; [discriminate | exact Hall].
Qed.

Lemma splice_lacks_LF lines i a :
  Forall (lacks JS.LF) lines ->
  Forall (lacks JS.LF) (fst (P4Manager.spliceLines d lines i a)).
Proof.
  intros H. revert i a. induction H as [| line rest Hl _ IH]; intros i a;
    [constructor |].
  destruct (isDescriptionHeader line) eqn:Hh.
  - rewrite splice_header by assumption. cbn [fst].
    constructor; [reflexivity |].
    apply Forall_app. split; [apply descriptionLines_lack_LF | apply IH].
  - destruct i; [destruct (endsDescription line) eqn:He |].
    + rewrite splice_copy by auto. constructor; [assumption | apply IH].
    + rewrite splice_skip by (split; assumption). apply IH.
    + rewrite splice_copy by auto. constructor; [assumption | apply IH].
Qed.
End splice_twice.

(** X8: rewriting a description is idempotent: feeding the spec that
    [updateChangelistDescription] builds through the same rewrite, with
    the same description, gives that spec again. *)
Theorem spliceDescription_idempotent output d spec :
  P4Manager.spliceDescription output d = Some spec ->
  P4Manager.spliceDescription spec d = Some spec.
Proof.
  unfold P4Manager.spliceDescription.
  destruct (P4Manager.spliceLines d (JS.split JS.LF output) false false)
    as [out added] eqn:Hout.
  destruct added; [| discriminate]. intros [= <-].
  assert (Hfst : out = fst (P4Manager.spliceLines d (JS.split JS.LF output) false false))
    by now rewrite Hout.
  assert (Hadded : existsb isDescriptionHeader (JS.split JS.LF output) = true).
  { pose proof (splice_added d (JS.split JS.LF output) false false) as H.
    now rewrite Hout in H. }
  assert (Hhead : existsb isDescriptionHeader out = true).
  { rewrite Hfst, splice_keeps_header. exact Hadded. }
  assert (Hne : out <> []) by (intros ->; discriminate).
  assert (Hlf : Forall (lacks JS.LF) out).
  { rewrite Hfst. apply splice_lacks_LF, split_all_lack. }
  rewrite (split_join JS.LF) by assumption.
  destruct (P4Manager.spliceLines d out false false) as [out2 added2] eqn:H2.
  assert (Hout2 : out2 = out).
  { change out2 with (fst (out2, added2)). rewrite <- H2, Hfst.
    apply splice_idempotent_lines. }
  assert (Ha2 : added2 = true).
  { pose proof (splice_added d out false false) as H. rewrite H2 in H.
    simpl in H. now rewrite Hhead in H. }
  now rewrite Hout2, Ha2.
Qed.

Lemma spliceDescription_idempotent_witness :
  exists spec,
    P4Manager.spliceDescription (JS.join (String JS.LF "") sampleSpec) "new text"
    = Some spec
    /\ P4Manager.spliceDescription spec "new text" = Some spec.
Proof.
  eexists. split; [vm_compute; reflexivity |].
  eapply (spliceDescription_idempotent (JS.join (String JS.LF "") sampleSpec)).
  vm_compute. reflexivity.
Defined.

(** A call of the tool returns what it returns in any state, and logs its
    command line. *)
Lemma runP4_run E args s :
  P4Manager.runP4 E args s
  = (outcome (P4Manager.runP4 E args), logged (Spawn (cmdline E args)) s).
Proof.
  unfold outcome, P4Manager.runP4, bind, cmdline. simpl.
  destruct (execAsync E _) as [out err | err msg [|]]; simpl;
    repeat match goal with |- context [if ?b then _ else _] => destruct b end;
    reflexivity.
Qed.

(** X9: when the spec that [change -o] prints has no line starting with
    [Description:], [updateChangelistDescription] throws
    [Failed to parse changelist spec] and does not start [change -i]: the
    only process it has spawned is the [change -o] query. *)
Theorem updateChangelistDescription_unparsed E changeIn n d s output :
  outcome (P4Manager.runP4 E ["change"; "-o"; P4Manager.number_toString n])
  = Ok output ->
  existsb isDescriptionHeader (JS.split JS.LF output) = false ->
  let r := P4Manager.updateChangelistDescription E changeIn n d s in
  fst r = Err "Failed to parse changelist spec"
  /\ effects_of (new_events s (snd r))
     = [Spawn (cmdline E ["change"; "-o"; P4Manager.number_toString n])].
Proof.
  intros Hout Hnone. simpl.
  unfold P4Manager.updateChangelistDescription, bind.
  rewrite runP4_run, Hout.
  unfold P4Manager.spliceDescription.
  rewrite splice_no_header by assumption. simpl.
  split; [reflexivity |]. new_events_simpl. reflexivity.
Qed.

Lemma updateChangelistDescription_unparsed_witness :
  fst (P4Manager.updateChangelistDescription Plain.env Plain.changeIn
         (Some 12%Z) "new text" Demo.state)
  = Err "Failed to parse changelist spec".
Proof.
  apply (updateChangelistDescription_unparsed Plain.env Plain.changeIn
           (Some 12%Z) "new text" Demo.state "Change 12 unknown.").
  - reflexivity.
  - reflexivity.
Defined.

(** ** The spec of a new changelist *)

Lemma replaceAll_join c r s :
  P4Manager.replaceAll c r s = JS.join r (JS.split c s).
Proof.
  induction s as [| a s IH]; [reflexivity |]. simpl.
  destruct (split_cons_shape c s) as (h & t & Hs).
  destruct (Ascii.eqb a c).
  - rewrite IH, Hs. reflexivity.
  - rewrite IH, Hs. now destruct t.
Qed.

Lemma join_indent sep tab l :
  l <> [] ->
  tab +:+ JS.join (sep +:+ tab) l
  = JS.join sep (map (fun x => tab +:+ x) l).
Proof.
  induction l as [| x [| y l] IH]; intros Hne; [contradiction | reflexivity |].
  change (JS.join (sep +:+ tab) (x :: y :: l))
    with (x +:+ (sep +:+ tab) +:+ JS.join (sep +:+ tab) (y :: l)).
  change (JS.join sep (map (fun x => tab +:+ x) (x :: y :: l)))
    with ((tab +:+ x) +:+ sep +:+ JS.join sep (map (fun x => tab +:+ x) (y :: l))).
  rewrite <- IH by discriminate.
  now rewrite !append_assoc.
Qed.

Lemma join_app_blank l :
  l <> [] ->
  JS.join (String JS.LF "") (l ++ [""])
  = JS.join (String JS.LF "") l +:+ String JS.LF "".
Proof.
  induction l as [| a [| b l] IH]; intros Hl; [contradiction | reflexivity |].
  change (JS.join (String JS.LF "") ((a :: b :: l) ++ [""]))
    with (a +:+ String JS.LF "" +:+ JS.join (String JS.LF "") ((b :: l) ++ [""])).
  rewrite IH by discriminate.
  change (JS.join (String JS.LF "") (a :: b :: l))
    with (a +:+ String JS.LF "" +:+ JS.join (String JS.LF "") (b :: l)).
  now rewrite !append_assoc.
Qed.

(** The description part of the spec of [createChangelist] is the lines
    of the description behind a tab each. *)
Lemma createSpec_lines description :
  P4Manager.createSpec description
  = JS.join (String JS.LF "")
      ("Change: new" :: "" :: "Description:"
         :: P4Manager.descriptionLines description ++ [""]).
Proof.
  unfold P4Manager.createSpec, P4Manager.descriptionLines.
  rewrite replaceAll_join.
  destruct (split_cons_shape JS.LF description) as (h & t & Hs).
  assert (Hne : JS.split JS.LF description <> []) by (rewrite Hs; discriminate).
  pose proof (join_indent (String JS.LF "") P4Manager.TAB _ Hne) as Hj.
  change (String JS.LF "" +:+ P4Manager.TAB) with (String JS.LF P4Manager.TAB) in Hj.
  set (dl := map (fun x => P4Manager.TAB +:+ x) (JS.split JS.LF description)) in *.
  assert (Hdl : exists x rest, dl = x :: rest).
  { unfold dl. rewrite Hs. simpl. eauto. }
  destruct Hdl as (x & rest & Hdl).
  transitivity ("Change: new" +:+ String JS.LF (String JS.LF "Description:")
                +:+ String JS.LF "" +:+ (JS.join (String JS.LF "") dl)
                +:+ String JS.LF "").
  - rewrite <- Hj. now rewrite !append_assoc.
  - rewrite Hdl.
    change (JS.join (String JS.LF "")
              ("Change: new" :: "" :: "Description:" :: (x :: rest) ++ [""]))
      with ("Change: new" +:+ String JS.LF (String JS.LF "Description:")
            +:+ String JS.LF "" +:+ JS.join (String JS.LF "") ((x :: rest) ++ [""])).
    now rewrite join_app_blank by discriminate.
Qed.

(** X10: the two spec writers agree.  Rewriting the description of the
    spec that [createChangelist] builds for one description gives, up to
    the final line break, the spec it builds for the new description. *)
Theorem spliceDescription_createSpec old description :
  exists spec,
    P4Manager.spliceDescription (P4Manager.createSpec old) description = Some spec
    /\ spec +:+ String JS.LF "" = P4Manager.createSpec description.
Proof.
  unfold P4Manager.spliceDescription.
  rewrite (createSpec_lines old).
  assert (Hlf : Forall (lacks JS.LF)
                  ("Change: new" :: "" :: "Description:"
                     :: P4Manager.descriptionLines old ++ [""])).
  { repeat (constructor; [reflexivity |]).
    apply Forall_app. split; [apply descriptionLines_lack_LF |].
    repeat constructor. }
  rewrite (split_join JS.LF) by (assumption || discriminate).
  pose proof (spliceLines_shape description ["Change: new"; ""] "Description:"
                (P4Manager.descriptionLines old ++ [""]) []) as H.
  rewrite app_nil_r in H. simpl app in H. rewrite H.
  - eexists. split; [reflexivity |].
    rewrite (createSpec_lines description).
    destruct (P4Manager.descriptionLines description) as [| x rest] eqn:Hdl.
    { unfold P4Manager.descriptionLines in Hdl.
      destruct (split_cons_shape JS.LF description) as (h & t & Hs).
      rewrite Hs in Hdl. discriminate. }
    change ("Change: new" :: "" :: "Description:" :: (x :: rest) ++ [""])
      with (("Change: new" :: "" :: "Description:" :: x :: rest) ++ [""]).
    rewrite join_app_blank by discriminate. now rewrite app_nil_r.
  - reflexivity.
  - reflexivity.
  - apply Forall_app. split; [apply descriptionLines_body |].
    repeat constructor.
  - reflexivity.
  - exact I.
Qed.

(** ** Checking out, moving and resolving files *)

Section file_operations.
Variable E : Env.

Lemma isFileOpened_run filePath s :
  P4Manager.isFileOpened E filePath s
  = (outcome (P4Manager.isFileOpened E filePath),
     logged (spawned E (openedArgs E filePath)) s).
Proof.
  unfold outcome, P4Manager.isFileOpened, try_catch, bind, ret.
  rewrite !runP4_run.
  now destruct (outcome (P4Manager.runP4 E _)).
Qed.

Lemma isFileOpened_total filePath :
  exists b, outcome (P4Manager.isFileOpened E filePath) = Ok b.
Proof.
  unfold outcome, P4Manager.isFileOpened, try_catch, bind, ret.
  rewrite runP4_run. destruct (outcome (P4Manager.runP4 E _)); simpl; eauto.
Qed.

Lemma resolve_direct_run filePath action mergedContent s :
  action <> AcceptMerged ->
  P4Manager.resolve E filePath action mergedContent s
  = (discard (outcome (P4Manager.runP4 E (resolveArgs E action filePath))),
     logged (spawned E (resolveArgs E action filePath)) s).
Proof.
  intros Hne. unfold P4Manager.resolve, bind, ret, resolveArgs, spawned.
  destruct action; try contradiction; simpl; rewrite runP4_run;
    now destruct (outcome (P4Manager.runP4 E _)).
Qed.
End file_operations.

(** X11: [ensureCheckedOut] never throws, and it tries no more than it
    needs: for a file the tool reports as opened it runs the opened query
    only and returns true; otherwise it runs [edit], and only when [edit]
    throws does it run [add]; it returns false only when both throw. *)
Theorem ensureCheckedOut_steps E filePath s :
  let r := P4Manager.ensureCheckedOut E filePath s in
  let run := effects_of (new_events s (snd r)) in
  if reportedOpened E filePath then
    fst r = Ok true /\ run = [spawned E (openedArgs E filePath)]
  else if succeeded (outcome (P4Manager.runP4 E (editArgs E filePath))) then
    fst r = Ok true
    /\ run = [spawned E (openedArgs E filePath); spawned E (editArgs E filePath)]
  else
    fst r = Ok (succeeded (outcome (P4Manager.runP4 E (addArgs E filePath))))
    /\ run = [spawned E (openedArgs E filePath); spawned E (editArgs E filePath);
              spawned E (addArgs E filePath)].
Proof.
  simpl. unfold P4Manager.ensureCheckedOut, bind.
  rewrite isFileOpened_run.
  unfold reportedOpened.
  destruct (isFileOpened_total E filePath) as [b Hb]. rewrite Hb.
  destruct b.
  - simpl. split; [reflexivity |]. new_events_simpl. reflexivity.
  - unfold try_catch, P4Manager.edit, P4Manager.add, bind, ret.
    rewrite runP4_run. fold (editArgs E filePath).
    destruct (outcome (P4Manager.runP4 E (editArgs E filePath))); simpl.
    + split; [reflexivity |]. new_events_simpl. reflexivity.
    + rewrite runP4_run. fold (addArgs E filePath).
      destruct (outcome (P4Manager.runP4 E (addArgs E filePath))); simpl;
        (split; [reflexivity |]); new_events_simpl; reflexivity.
Qed.

(** X12: [move] checks the source out first when the tool does not report
    it as opened, and it never runs [move] after a failed checkout: the
    error of [edit] is thrown as it is and the move command is not
    started. *)
Theorem move_checks_out_first E oldPath newPath s :
  let r := P4Manager.move E oldPath newPath s in
  let run := effects_of (new_events s (snd r)) in
  let moved := discard (outcome (P4Manager.runP4 E (moveArgs E oldPath newPath))) in
  if reportedOpened E oldPath then
    fst r = moved
    /\ run = [spawned E (openedArgs E oldPath);
              spawned E (moveArgs E oldPath newPath)]
  else
    match outcome (P4Manager.runP4 E (editArgs E oldPath)) with
    | Ok _ =>
        fst r = moved
        /\ run = [spawned E (openedArgs E oldPath); spawned E (editArgs E oldPath);
                  spawned E (moveArgs E oldPath newPath)]
    | Err message =>
        fst r = Err message
        /\ run = [spawned E (openedArgs E oldPath); spawned E (editArgs E oldPath)]
    end.
Proof.
  simpl. unfold P4Manager.move, bind.
  rewrite isFileOpened_run.
  unfold reportedOpened.
  destruct (isFileOpened_total E oldPath) as [b Hb]. rewrite Hb.
  destruct b.
  - simpl. unfold ret.
    rewrite runP4_run. fold (moveArgs E oldPath newPath).
    destruct (outcome (P4Manager.runP4 E (moveArgs E oldPath newPath))); simpl;
      (split; [reflexivity |]); new_events_simpl; reflexivity.
  - simpl. unfold bind, ret.
    rewrite runP4_run. fold (editArgs E oldPath).
    destruct (outcome (P4Manager.runP4 E (editArgs E oldPath))); simpl.
    + rewrite runP4_run. fold (moveArgs E oldPath newPath).
      destruct (outcome (P4Manager.runP4 E (moveArgs E oldPath newPath))); simpl;
        (split; [reflexivity |]); new_events_simpl; reflexivity.
    + split; [reflexivity |]. new_events_simpl. reflexivity.
Qed.

(** X13: the resolve actions other than [accept-merged] run one [resolve]
    command with their flag and nothing else: they write no file (the
    merged content, if one is passed, is ignored), leave the vault and
    the merge flag as they are, and throw the tool's error as it is. *)
Theorem resolve_direct_actions E filePath action mergedContent s :
  action <> AcceptMerged ->
  let r := P4Manager.resolve E filePath action mergedContent s in
  fst r = discard (outcome (P4Manager.runP4 E (resolveArgs E action filePath)))
  /\ effects_of (new_events s (snd r)) = [spawned E (resolveArgs E action filePath)]
  /\ vaultFiles (snd r) = vaultFiles s
  /\ isResolvingMerge (snd r) = isResolvingMerge s.
Proof.
  intros Hne. simpl. rewrite resolve_direct_run by assumption. simpl.
  split; [reflexivity |]. split; [| split; reflexivity].
  new_events_simpl. reflexivity.
Qed.

Lemma resolve_direct_actions_witness :
  let r := P4Manager.resolve Demo.offline "notes/a.md" AcceptTheirs
             (Some "merged text") Demo.state in
  fst r = Err "Connect to server failed"
  /\ vaultFiles (snd r) = vaultFiles Demo.state.
Proof.
  pose proof (resolve_direct_actions Demo.offline "notes/a.md" AcceptTheirs
                (Some "merged text") Demo.state) as H.
  destruct H as (H1 & _ & H2 & _); [discriminate |].
  split; [exact H1 | exact H2].
Defined.

Section resolve_all.
Variable E : Env.

Lemma resolveEach_run conflicts s :
  fst (P4Manager.resolveEach E conflicts s)
  = Ok (List.filter (safelyResolved E) (map cf_vaultPath conflicts),
        List.filter (fun p => negb (safelyResolved E p))
                    (map cf_vaultPath conflicts)).
Proof.
  revert s. induction conflicts as [| c rest IH]; intros s; [reflexivity |].
  cbn [P4Manager.resolveEach map List.filter]. unfold bind, try_catch, ret.
  rewrite resolve_direct_run by discriminate.
  specialize (IH (logged (spawned E (resolveArgs E AcceptSafeMerge (cf_vaultPath c))) s)).
  destruct (outcome (P4Manager.runP4 E _)) as [out | e] eqn:Ho; simpl.
  - assert (Hs : safelyResolved E (cf_vaultPath c) = true)
      by (unfold safelyResolved; now rewrite Ho).
    rewrite Hs. simpl.
    destruct (P4Manager.resolveEach E rest _) as [[others | e] s1];
      simpl in *; [| discriminate].
    injection IH as ->. reflexivity.
  - assert (Hs : safelyResolved E (cf_vaultPath c) = false)
      by (unfold safelyResolved; now rewrite Ho).
    rewrite Hs. simpl.
    destruct (P4Manager.resolveEach E rest _) as [[others | e'] s1];
      simpl in *; [| discriminate].
    injection IH as ->. reflexivity.
Qed.
End resolve_all.

(** X14: [resolveAllSafe] never throws, and it sorts the conflicts of
    [getConflicts] into two lists by what their safe resolve did: the
    vault paths whose [resolve -as] returned, in order, and the vault
    paths whose [resolve -as] threw, in order; every conflict is in
    exactly one of them. *)
Theorem resolveAllSafe_partition E s :
  exists conflicts,
    fst (P4Manager.getConflicts E s) = Ok conflicts
    /\ fst (P4Manager.resolveAllSafe E s)
       = Ok (List.filter (safelyResolved E) (map cf_vaultPath conflicts),
             List.filter (fun p => negb (safelyResolved E p))
                         (map cf_vaultPath conflicts))
    /\ length (List.filter (safelyResolved E) (map cf_vaultPath conflicts))
       + length (List.filter (fun p => negb (safelyResolved E p))
                             (map cf_vaultPath conflicts))
       = length conflicts.
Proof.
  destruct (getConflicts_total E s) as [conflicts Hc].
  exists conflicts. split; [exact Hc |]. split.
  - unfold P4Manager.resolveAllSafe, bind.
    destruct (P4Manager.getConflicts E s) as [[l | e] s1]; simpl in Hc;
      [| discriminate].
    injection Hc as ->. apply resolveEach_run.
  - rewrite <- (length_map cf_vaultPath conflicts).
    induction (map cf_vaultPath conflicts) as [| p l IH]; [reflexivity |].
    simpl. destruct (safelyResolved E p); simpl; lia.
Qed.

(** ** The three versions of a conflicted file *)

Lemma bind_run {A B} (m : M A) (k : A -> M B) s :
  bind m k s
  = match m s with
    | (Ok a, s') => k a s'
    | (Err e, s') => (Err e, s')
    end.
Proof. reflexivity. Qed.

Lemma try_catch_run {A} (m : M A) (h : string -> M A) s :
  try_catch m h s
  = match m s with
    | (Ok a, s') => (Ok a, s')
    | (Err e, s') => h e s'
    end.
Proof. reflexivity. Qed.

Lemma read_or_empty filePath s :
  try_catch (P4Manager.adapter_read filePath) (fun _ => ret "") s
  = (Ok (default "" (vaultFiles s !! filePath)), s).
Proof.
  unfold try_catch, P4Manager.adapter_read, bind, get_state, ret, throw.
  now destruct (vaultFiles s !! filePath).
Qed.

(** X15: [getConflictVersions] never throws and leaves the vault alone.
    [yours] is the content the vault holds, or empty when the file cannot
    be read; [theirs] is the depot print, or empty when the print throws.
    [base] is [theirs] when the have query throws, empty when the have
    output shows no revision ([#n -]), and otherwise the print of the
    have revision, or [theirs] when that print throws. *)
Theorem getConflictVersions_fallbacks E filePath s :
  let r := P4Manager.getConflictVersions E filePath s in
  exists v,
    fst r = Ok v
    /\ vaultFiles (snd r) = vaultFiles s
    /\ mv_yours v = default "" (vaultFiles s !! filePath)
    /\ mv_theirs v = orDefault (outcome (P4Manager.runP4 E (printArgs E filePath))) ""
    /\ match outcome (P4Manager.runP4 E (haveArgs E filePath)) with
       | Err _ => mv_base v = mv_theirs v
       | Ok haveOutput =>
           match Regex.exec false P4Manager.haveRevRe haveOutput with
           | None => mv_base v = ""
           | Some m =>
               if JS.truthy_opt (Regex.group m 1) then
                 mv_base v
                 = orDefault
                     (outcome (P4Manager.runP4 E
                        (printRevArgs E filePath
                           (JS.parseInt (default "" (Regex.group m 1))))))
                     (mv_theirs v)
               else mv_base v = ""
           end
       end.
Proof.
  cbv zeta. unfold P4Manager.getConflictVersions.
  rewrite bind_run, read_or_empty, bind_run, try_catch_run, runP4_run.
  fold (printArgs E filePath).
  destruct (outcome (P4Manager.runP4 E (printArgs E filePath))) as [theirs | e1];
    cbn [orDefault ret];
    rewrite bind_run, try_catch_run, bind_run, runP4_run;
    fold (haveArgs E filePath);
    (destruct (outcome (P4Manager.runP4 E (haveArgs E filePath)))
       as [haveOutput | e2];
     [ destruct (Regex.exec false P4Manager.haveRevRe haveOutput) as [m |];
       [ destruct (JS.truthy_opt (Regex.group m 1));
         [ rewrite runP4_run; fold (printRevArgs E filePath
                  (JS.parseInt (default "" (Regex.group m 1))));
           destruct (outcome (P4Manager.runP4 E (printRevArgs E filePath _))) | ]
       | ]
     | ]);
    eexists; repeat split; reflexivity.
Qed.

(** With the server out of reach and the file in the vault, the versions
    are the local text and two empty strings. *)
Example getConflictVersions_offline :
  fst (P4Manager.getConflictVersions Demo.offline "notes/a.md" Demo.state)
  = Ok {| mv_base := ""; mv_theirs := ""; mv_yours := "edited text" |}.
Proof. vm_compute. reflexivity. Qed.

(** * Further properties of the blame provider *)

Section blame_cache.
Import Blame.

(** X16: a file that counts as editable (markdown or canvas) counts as a
    text file, so the blame provider does not skip it. *)
Theorem isEditableFile_isTextFile filePath :
  isEditableFile filePath = true -> isTextFile filePath = true.
Proof.
  unfold isEditableFile, isTextFile.
  set (ext := JS.toLowerCase _). intros H.
  apply orb_true_iff in H as [H | H];
    [apply orb_true_iff in H as [H | H] |];
    apply String.eqb_eq in H; rewrite H; vm_compute; reflexivity.
Qed.

Lemma isEditableFile_isTextFile_witness :
  isEditableFile "Boards/Plan.CANVAS" = true
  /\ isTextFile "Boards/Plan.CANVAS" = true.
Proof.
  split; [reflexivity |].
  apply (isEditableFile_isTextFile "Boards/Plan.CANVAS"). reflexivity.
Defined.

(** X17: only what follows the last dot of a path decides whether the
    file is a text file, and its case does not matter: the directories
    and the stem play no part. *)
Theorem isTextFile_by_extension stem ext :
  lacks "." ext ->
  isTextFile (stem +:+ String "." ext)
  = bool_decide (JS.toLowerCase ext ∈ TEXT_FILE_EXTENSIONS).
Proof.
  intros Hext. unfold isTextFile.
  rewrite split_app_sep, (split_lacks _ _ Hext), last_snoc.
  reflexivity.
Qed.

Lemma isTextFile_by_extension_witness :
  lacks "." "MD" /\ isTextFile ("notes.v2/Read.me" +:+ String "." "MD") = true.
Proof.
  split; [reflexivity |].
  rewrite (isTextFile_by_extension "notes.v2/Read.me" "MD"); reflexivity.
Defined.

(** A path without a dot is judged by the whole of it. *)
Example isTextFile_without_dot :
  isTextFile "md" = true /\ isTextFile "notes/md" = false.
Proof. split; reflexivity. Qed.

(** ** The cache *)

Lemma finish_tasks f filePath value c d p i :
  tasks (finish f filePath value c d p) !! i
  = if decide (i = f) then Some (Resolved value)
    else if bool_decide (i ∈ default [] (waitingCallbacks p !! filePath))
         then Some (Resolved value)
         else tasks p !! i.
Proof.
  unfold finish. cbn [tasks].
  destruct (decide (i = f)) as [-> | Hne].
  - apply lookup_insert_eq.
  - rewrite lookup_insert_ne by congruence. apply notify_lookup.
Qed.

Lemma fullFetch_run p id filePath t fetched describe t0 :
  ready p = true -> isTextFile filePath = true ->
  filePath ∉ pendingFetches p ->
  run (fullFetch id filePath t fetched describe t0) p
  = afterFetchDescriptions id filePath fetched describe t0
      (set_task id (AtFetchDescriptions filePath fetched)
         (afterIsFileInDepot id filePath true
            (set_task id (AtIsFileInDepot filePath) p))).
Proof.
  intros Hr Ht Hnin.
  unfold fullFetch, run. cbn [foldl]. unfold step at 4. unfold getBlame.
  rewrite bool_decide_eq_false_2 by assumption.
  unfold fetchBlame_start. rewrite Hr, Ht. cbn [negb].
  unfold step at 3. cbn [set_task tasks]. rewrite lookup_insert_eq.
  unfold step at 2. unfold afterIsFileInDepot at 1 2. cbn [negb tasks].
  rewrite lookup_insert_eq. unfold afterAnnotate.
  unfold step. unfold set_task at 1 2. cbn [tasks]. rewrite lookup_insert_eq.
  reflexivity.
Qed.

(** X18: a fetch that runs to its end stores its result under the path
    with the time of its end.  A later call that does not force a refresh
    is answered from the cache, with the very result the fetching call
    got, as long as less than [CACHE_TTL] has passed since; from then on
    the call starts a fetch of its own.  In both cases the call itself
    does not invoke [annotate]. *)
Theorem getBlame_after_fetch p id filePath t fetched describe t0 id' t1 :
  ready p = true -> isTextFile filePath = true ->
  filePath ∉ pendingFetches p ->
  let p1 := run (fullFetch id filePath t fetched describe t0) p in
  let p2 := step p1 (Call id' filePath false t1) in
  exists r,
    observed p1 id = Some (Some r)
    /\ map bl_content (br_lines r) = map bl_content (br_lines fetched)
    /\ isCached filePath t1 p1 = (t1 - t0 <? CACHE_TTL)%Z
    /\ annotateCalls p2 = annotateCalls p1
    /\ if (t1 - t0 <? CACHE_TTL)%Z
       then observed p2 id' = Some (Some r)
       else tasks p2 !! id' = Some (AtIsFileInDepot filePath).
Proof.
  intros Hr Ht Hnin. cbv zeta. rewrite fullFetch_run by assumption.
  set (p0 := set_task id (AtFetchDescriptions filePath fetched) _).
  unfold afterFetchDescriptions.
  set (d := fetchDescriptions describe (br_lines fetched) (descriptionCache p0)).
  set (r := {| br_filePath := br_filePath fetched;
               br_lines := map (withDescription d) (br_lines fetched);
               br_fetchedAt := br_fetchedAt fetched |}).
  exists r. split; [| split; [| split]].
  - unfold observed. rewrite finish_tasks.
    now destruct (decide (id = id)).
  - cbn [r br_lines]. rewrite map_map. reflexivity.
  - unfold isCached, finish. cbn [cache]. rewrite lookup_insert_eq.
    reflexivity.
  - set (pf := finish id filePath (Some r) _ d p0).
    assert (Hc : cache pf !! filePath = Some {| result := r; cachedAt := t0 |})
      by (unfold pf, finish; cbn [cache]; apply lookup_insert_eq).
    assert (Hout : filePath ∉ pendingFetches pf)
      by (unfold pf, finish; cbn [pendingFetches];
          rewrite elem_of_difference; intros [_ Hn]; apply Hn;
          now apply elem_of_singleton).
    assert (Hready : ready pf = true) by exact Hr.
    unfold step, getBlame. rewrite Hc. cbn [cachedAt result].
    destruct (t1 - t0 <? CACHE_TTL)%Z.
    + split; [reflexivity |]. unfold observed, set_task. cbn [tasks].
      now rewrite lookup_insert_eq.
    + rewrite bool_decide_eq_false_2 by exact Hout.
      unfold fetchBlame_start. rewrite Hready, Ht. cbn [negb].
      split; [reflexivity |].
      unfold set_task. cbn [tasks]. apply lookup_insert_eq.
Qed.

Lemma getBlame_after_fetch_witness :
  exists r,
    observed (run (fullFetch 1 "a.md" 1000 BlameDemo.fetched BlameDemo.describe
                     1200) initial) 1
    = Some (Some r)
    /\ observed (step (run (fullFetch 1 "a.md" 1000 BlameDemo.fetched
                              BlameDemo.describe 1200) initial)
                      (Call 2 "a.md" false 2000)) 2
       = Some (Some r).
Proof.
  destruct (getBlame_after_fetch initial 1 "a.md" 1000 BlameDemo.fetched
              BlameDemo.describe 1200 2 2000)
    as (r & H1 & _ & _ & _ & H2);
    [reflexivity | reflexivity | apply not_elem_of_empty |].
  exists r. split; [exact H1 | exact H2].
Defined.

Lemma cleanupEntries_lookup now entries m k :
  cleanupEntries now entries m !! k
  = if existsb (fun entry =>
                  bool_decide (fst entry = k)
                  && (now - cachedAt (snd entry) >? CACHE_TTL * 2)%Z) entries
    then None else m !! k.
Proof.
  revert m. induction entries as [| [k' c] entries IH]; intros m;
    [reflexivity |].
  unfold cleanupEntries in *. cbn [foldl existsb fst snd]. rewrite IH.
  destruct (existsb _ entries); [now rewrite orb_true_r |].
  rewrite orb_false_r.
  destruct (now - cachedAt c >? CACHE_TTL * 2)%Z;
    [| now rewrite andb_false_r].
  rewrite andb_true_r. destruct (decide (k' = k)) as [-> | Hne].
  - rewrite bool_decide_eq_true_2 by reflexivity. apply lookup_delete_eq.
  - rewrite bool_decide_eq_false_2 by assumption.
    now apply lookup_delete_ne.
Qed.

(** X19: [cleanup] removes exactly the entries stored more than twice
    [CACHE_TTL] ago and leaves the others as they are.  It therefore never
    changes what [isCached] answers at that time: an entry [getBlame]
    would still serve is kept, and the entries it removes had expired. *)
Theorem cleanup_removes_old_entries now p filePath :
  cache (cleanup now p) !! filePath
  = match cache p !! filePath with
    | Some cached =>
        if (now - cachedAt cached >? CACHE_TTL * 2)%Z then None
        else Some cached
    | None => None
    end
  /\ isCached filePath now (cleanup now p) = isCached filePath now p.
Proof.
  assert (Hlook : cache (cleanup now p) !! filePath
                  = match cache p !! filePath with
                    | Some cached =>
                        if (now - cachedAt cached >? CACHE_TTL * 2)%Z then None
                        else Some cached
                    | None => None
                    end).
  { unfold cleanup. cbn [cache]. rewrite cleanupEntries_lookup.
    destruct (existsb _ _) eqn:Hex.
    - apply existsb_exists in Hex as ([k c] & Hin & Hold).
      apply andb_true_iff in Hold as [Hk Hold]. cbn [fst snd] in *.
      apply bool_decide_eq_true_1 in Hk. subst k.
      apply list_elem_of_In, elem_of_map_to_list in Hin.
      now rewrite Hin, Hold.
    - destruct (cache p !! filePath) as [c |] eqn:Hc; [| reflexivity].
      destruct (now - cachedAt c >? CACHE_TTL * 2)%Z eqn:Hold;
        [| reflexivity].
      assert (Hin : In (filePath, c) (map_to_list (cache p)))
        by now apply list_elem_of_In, elem_of_map_to_list.
      assert (Hex' : existsb (fun entry =>
                  bool_decide (fst entry = filePath)
                  && (now - cachedAt (snd entry) >? CACHE_TTL * 2)%Z)
                (map_to_list (cache p)) = true).
      { apply existsb_exists. exists (filePath, c). split; [exact Hin |].
        cbn [fst snd]. rewrite Hold.
        now rewrite bool_decide_eq_true_2 by reflexivity. }
      congruence. }
  split; [exact Hlook |].
  unfold isCached. rewrite Hlook.
  destruct (cache p !! filePath) as [c |]; [| reflexivity].
  destruct (now - cachedAt c >? CACHE_TTL * 2)%Z eqn:Hold; [| reflexivity].
  symmetry. apply Z.ltb_ge. apply Z.gtb_lt in Hold.
  unfold CACHE_TTL in *. lia.
Qed.

(** X20: after [invalidate(filePath)] a call for the path is never
    answered from the cache.  But a fetch of the path that is under way is
    not cancelled: when it ends it stores the lines it fetched before the
    invalidation, and the calls of the next [CACHE_TTL] get them. *)
Theorem invalidate_does_not_cancel_fetch p f filePath fetched describe t0
    id t1 :
  tasks p !! f = Some (AtFetchDescriptions filePath fetched) ->
  (t1 - t0 < CACHE_TTL)%Z ->
  (forall id' now r,
     observed (step (invalidate filePath p) (Call id' filePath false now)) id'
     <> Some (Some r))
  /\ exists r,
       observed
         (run [FetchDescriptionsReturns f describe t0;
               Call id filePath false t1] (invalidate filePath p)) id
       = Some (Some r)
       /\ map bl_content (br_lines r) = map bl_content (br_lines fetched).
Proof.
  intros Hf Hlt. split.
  - intros id' now r. unfold step, getBlame, invalidate at 1. cbn [cache].
    rewrite lookup_delete_eq.
    destruct (bool_decide _).
    + unfold observed. cbn [tasks]. now rewrite lookup_insert_eq.
    + unfold fetchBlame_start, observed.
      destruct (negb (ready _)); [| destruct (negb (isTextFile _))];
        unfold set_task; cbn [tasks]; rewrite lookup_insert_eq; congruence.
  - unfold run. cbn [foldl]. unfold step at 2.
    assert (Hf' : tasks (invalidate filePath p) !! f
                  = Some (AtFetchDescriptions filePath fetched)) by exact Hf.
    rewrite Hf'. unfold afterFetchDescriptions.
    set (d := fetchDescriptions _ _ _).
    set (r := {| br_filePath := br_filePath fetched;
                 br_lines := map (withDescription d) (br_lines fetched);
                 br_fetchedAt := br_fetchedAt fetched |}).
    set (pf := finish f filePath (Some r) _ d _).
    assert (Hc : cache pf !! filePath = Some {| result := r; cachedAt := t0 |})
      by (unfold pf, finish; cbn [cache]; apply lookup_insert_eq).
    exists r. split.
    + unfold step, getBlame. rewrite Hc. cbn [cachedAt result].
      apply Z.ltb_lt in Hlt. rewrite Hlt.
      unfold observed, set_task. cbn [tasks]. now rewrite lookup_insert_eq.
    + cbn [r br_lines]. rewrite map_map. reflexivity.
Qed.

Lemma invalidate_does_not_cancel_fetch_witness :
  exists r,
    observed
      (run [FetchDescriptionsReturns 1 BlameDemo.describe 1200;
            Call 2 "a.md" false 2000]
         (invalidate "a.md"
            (run [Call 1 "a.md" false 1000; IsFileInDepotReturns 1 true;
                  AnnotateReturns 1 (Ok BlameDemo.fetched)] initial))) 2
    = Some (Some r)
    /\ map bl_content (br_lines r)
       = map bl_content (br_lines BlameDemo.fetched).
Proof.
  apply (invalidate_does_not_cancel_fetch
           (run [Call 1 "a.md" false 1000; IsFileInDepotReturns 1 true;
                 AnnotateReturns 1 (Ok BlameDemo.fetched)] initial)
           1 "a.md" BlameDemo.fetched BlameDemo.describe 1200 2 2000).
  - reflexivity.
  - reflexivity.
Defined.

(** ** Calls that wait for a fetch *)

Lemma fetching_not_callback p f filePath filePath' :
  fetching p f filePath -> tasks p !! f <> Some (AtCallback filePath').
Proof. intros [H | [r H]]; rewrite H; discriminate. Qed.

Lemma fetching_path p f filePath filePath' :
  fetching p f filePath -> fetching p f filePath' -> filePath = filePath'.
Proof.
  intros [H | [r H]] [H' | [r' H']]; rewrite H in H'; congruence.
Qed.

Lemma fetching_ext p q f filePath :
  tasks q !! f = tasks p !! f -> fetching p f filePath -> fetching q f filePath.
Proof. unfold fetching. intros ->. auto. Qed.

(** A call whose task is neither waiting nor fetching may move on to a
    task that is not waiting either. *)
Lemma consistent_set_task ids ids' p id t :
  consistent ids p ->
  (forall filePath, tasks p !! id <> Some (AtCallback filePath)) ->
  (forall filePath, ~ fetching p id filePath) ->
  (forall filePath, t <> AtCallback filePath) ->
  id ∈ ids' -> (forall i, i ∈ ids -> i ∈ ids') ->
  consistent ids' (set_task id t p).
Proof.
  intros (Hknown & Hreg & Hwait & Hpend & Hfetch) Hcb Hnf Ht Hid Hsub.
  unfold consistent, set_task. cbn [tasks waitingCallbacks pendingFetches].
  repeat split.
  - intros i t'. destruct (decide (i = id)) as [-> | Hne]; [auto |].
    rewrite lookup_insert_ne by congruence. eauto.
  - intros i filePath. destruct (decide (i = id)) as [-> | Hne].
    + rewrite lookup_insert_eq. intros [= E]. now destruct (Ht filePath).
    + rewrite lookup_insert_ne by congruence. apply Hreg.
  - intros filePath l i Hl Hi.
    assert (Hti := Hwait _ _ _ Hl Hi).
    rewrite lookup_insert_ne; [exact Hti |].
    intros <-. now destruct (Hcb filePath).
  - exact Hpend.
  - intros filePath Hin. destruct (Hfetch _ Hin) as [f Hf]. exists f.
    refine (fetching_ext p _ f filePath _ Hf). cbn [tasks].
    apply lookup_insert_ne. intros <-. now destruct (Hnf filePath).
Qed.

Lemma consistent_finish ids p f filePath value c d :
  consistent ids p -> fetching p f filePath ->
  consistent ids (finish f filePath value c d p).
Proof.
  intros (Hknown & Hreg & Hwait & Hpend & Hfetch) Hf.
  assert (Hl : forall i,
             i ∈ default [] (waitingCallbacks p !! filePath) ->
             tasks p !! i = Some (AtCallback filePath)).
  { intros i. destruct (waitingCallbacks p !! filePath) as [l |] eqn:El;
      cbn [default].
    - eauto.
    - intros Hi. now apply elem_of_nil in Hi. }
  unfold consistent. repeat split.
  - intros i t. rewrite finish_tasks.
    destruct (decide (i = f)) as [-> | Hne].
    + intros _. destruct Hf as [H | [r H]]; eauto.
    + destruct (bool_decide _) eqn:Hb; [| eauto].
      apply bool_decide_eq_true_1 in Hb. intros _. eauto.
  - intros i filePath'. rewrite finish_tasks.
    destruct (decide (i = f)); [discriminate |].
    destruct (bool_decide _) eqn:Hb; [discriminate |].
    apply bool_decide_eq_false_1 in Hb. intros Hi.
    destruct (Hreg _ _ Hi) as (l & El & Hil). exists l.
    split; [| exact Hil]. unfold finish. cbn [waitingCallbacks].
    rewrite lookup_delete_ne; [exact El |].
    intros <-. apply Hb. now rewrite El.
  - intros filePath' l i. unfold finish at 1. cbn [waitingCallbacks].
    destruct (decide (filePath = filePath')) as [<- | Hne];
      [now rewrite lookup_delete_eq |].
    rewrite lookup_delete_ne by assumption. intros El Hi.
    assert (Hti := Hwait _ _ _ El Hi).
    rewrite finish_tasks.
    destruct (decide (i = f)) as [-> | _];
      [now destruct (fetching_not_callback _ _ _ filePath' Hf) |].
    rewrite bool_decide_eq_false_2; [exact Hti |].
    intros Hin. apply Hl in Hin. congruence.
  - intros filePath' l. unfold finish. cbn [waitingCallbacks pendingFetches].
    destruct (decide (filePath = filePath')) as [<- | Hne];
      [now rewrite lookup_delete_eq |].
    rewrite lookup_delete_ne by assumption. intros El.
    apply elem_of_difference. split; [eauto |].
    rewrite elem_of_singleton. congruence.
  - intros filePath'. unfold finish at 1. cbn [pendingFetches].
    rewrite elem_of_difference, elem_of_singleton. intros [Hin Hne].
    destruct (Hfetch _ Hin) as [f' Hf']. exists f'.
    refine (fetching_ext p _ f' filePath' _ Hf'). rewrite finish_tasks.
    destruct (decide (f' = f)) as [-> | _];
      [destruct Hne; eapply fetching_path; eauto |].
    rewrite bool_decide_eq_false_2; [reflexivity |].
    intros Hi. apply Hl in Hi.
    now destruct (fetching_not_callback _ _ _ filePath Hf').
Qed.

Lemma consistent_call ids p id filePath forceRefresh now :
  consistent ids p -> id ∉ ids ->
  consistent (id :: ids) (getBlame id filePath forceRefresh now p).
Proof.
  intros Hc Hid.
  assert (Hnone : tasks p !! id = None).
  { destruct Hc as (Hknown & _).
    destruct (tasks p !! id) eqn:E; [| reflexivity].
    destruct Hid. eauto. }
  assert (Hset : forall t, (forall f, t <> AtCallback f) ->
                           consistent (id :: ids) (set_task id t p)).
  { intros t Ht. apply (consistent_set_task ids); try assumption.
    - intros f. rewrite Hnone. discriminate.
    - intros f [H | [r H]]; rewrite Hnone in H; discriminate.
    - apply elem_of_cons. now left.
    - intros i Hi. apply elem_of_cons. now right. }
  unfold getBlame.
  match goal with
  | |- context [match ?fresh with Some _ => _ | None => _ end] =>
      destruct fresh
  end; [apply Hset; discriminate |].
  destruct (bool_decide _) eqn:Hb.
  - apply bool_decide_eq_true_1 in Hb.
    destruct Hc as (Hknown & Hreg & Hwait & Hpend & Hfetch).
    assert (Hl : forall i,
               i ∈ default [] (waitingCallbacks p !! filePath) ->
               tasks p !! i = Some (AtCallback filePath)).
    { intros i. destruct (waitingCallbacks p !! filePath) as [l |] eqn:El;
        cbn [default]; [eauto |].
      intros Hi. now apply elem_of_nil in Hi. }
    unfold consistent. cbn [tasks waitingCallbacks pendingFetches].
    repeat split.
    + intros i t. rewrite elem_of_cons.
      destruct (decide (i = id)) as [-> | Hne]; [auto |].
      rewrite lookup_insert_ne by congruence. eauto.
    + intros i filePath'. destruct (decide (i = id)) as [-> | Hne].
      * rewrite lookup_insert_eq. intros [= <-].
        rewrite lookup_insert_eq. eexists. split; [reflexivity |].
        apply elem_of_app. right. now apply list_elem_of_singleton.
      * rewrite lookup_insert_ne by congruence. intros Hi.
        destruct (Hreg _ _ Hi) as (l & El & Hil).
        destruct (decide (filePath = filePath')) as [<- | Hp].
        -- rewrite lookup_insert_eq, El. cbn [default].
           eexists. split; [reflexivity |]. apply elem_of_app. now left.
        -- rewrite lookup_insert_ne by assumption. eauto.
    + intros filePath' l i.
      destruct (decide (filePath = filePath')) as [<- | Hp].
      * rewrite lookup_insert_eq. intros [= <-]. rewrite elem_of_app.
        intros [Hi | Hi].
        -- assert (Hti := Hl _ Hi). rewrite lookup_insert_ne; [exact Hti |].
           intros <-. congruence.
        -- apply list_elem_of_singleton in Hi. subst i.
           apply lookup_insert_eq.
      * rewrite lookup_insert_ne by assumption. intros El Hi.
        assert (Hti := Hwait _ _ _ El Hi).
        rewrite lookup_insert_ne; [exact Hti |]. intros <-. congruence.
    + intros filePath' l.
      destruct (decide (filePath = filePath')) as [<- | Hp]; [auto |].
      rewrite lookup_insert_ne by assumption. eauto.
    + intros filePath' Hin. destruct (Hfetch _ Hin) as [f Hf]. exists f.
      refine (fetching_ext p _ f filePath' _ Hf). cbn [tasks].
      apply lookup_insert_ne. intros <-.
      destruct Hf as [H | [r H]]; congruence.
  - unfold fetchBlame_start.
    destruct (negb (ready p)); [apply Hset; discriminate |].
    destruct (negb (isTextFile filePath)); apply Hset; discriminate.
Qed.

Lemma consistent_step ids p st :
  consistent ids p ->
  (forall id, id ∈ callIds [st] -> id ∉ ids) ->
  consistent (callIds [st] ++ ids) (step p st).
Proof.
  intros Hc Hfresh. destruct st as [id filePath fr now | id b | id r | id d now].
  - cbn [callIds omap step]. apply consistent_call; [exact Hc |].
    apply Hfresh. cbn. apply elem_of_cons. now left.
  - cbn [callIds omap step app].
    destruct (tasks p !! id) as [[filePath | | | |] |] eqn:Et; try exact Hc.
    unfold afterIsFileInDepot. destruct b; cbn [negb].
    + destruct Hc as (Hknown & Hreg & Hwait & Hpend & Hfetch).
      unfold consistent. cbn [tasks waitingCallbacks pendingFetches].
      repeat split.
      * intros i t. destruct (decide (i = id)) as [-> | Hne]; [eauto |].
        rewrite lookup_insert_ne by congruence. eauto.
      * intros i filePath'. destruct (decide (i = id)) as [-> | Hne].
        -- rewrite lookup_insert_eq. discriminate.
        -- rewrite lookup_insert_ne by congruence. apply Hreg.
      * intros filePath' l i El Hi. assert (Hti := Hwait _ _ _ El Hi).
        rewrite lookup_insert_ne; [exact Hti |]. intros <-. congruence.
      * intros filePath' l El. apply elem_of_union. right. eauto.
      * intros filePath'. rewrite elem_of_union, elem_of_singleton.
        destruct (decide (filePath' = filePath)) as [-> | Hne].
        -- intros _. exists id. left. cbn [tasks]. apply lookup_insert_eq.
        -- intros [? | Hin]; [contradiction |].
           destruct (Hfetch _ Hin) as [f Hf]. exists f.
           refine (fetching_ext p _ f filePath' _ Hf). cbn [tasks].
           apply lookup_insert_ne. intros <-.
           destruct Hf as [H | [r H]]; congruence.
    + apply (consistent_set_task ids); try assumption.
      * intros f. rewrite Et. discriminate.
      * intros f [H | [r H]]; rewrite Et in H; discriminate.
      * discriminate.
      * destruct Hc as (Hknown & _). eauto.
      * auto.
  - cbn [callIds omap step app].
    destruct (tasks p !! id) as [[| filePath | | |] |] eqn:Et; try exact Hc.
    unfold afterAnnotate. destruct r as [fetched | e].
    + destruct Hc as (Hknown & Hreg & Hwait & Hpend & Hfetch).
      unfold consistent, set_task.
      cbn [tasks waitingCallbacks pendingFetches]. repeat split.
      * intros i t. destruct (decide (i = id)) as [-> | Hne]; [eauto |].
        rewrite lookup_insert_ne by congruence. eauto.
      * intros i filePath'. destruct (decide (i = id)) as [-> | Hne].
        -- rewrite lookup_insert_eq. discriminate.
        -- rewrite lookup_insert_ne by congruence. apply Hreg.
      * intros filePath' l i El Hi. assert (Hti := Hwait _ _ _ El Hi).
        rewrite lookup_insert_ne; [exact Hti |]. intros <-. congruence.
      * exact Hpend.
      * intros filePath' Hin. destruct (Hfetch _ Hin) as [f Hf].
        destruct (decide (f = id)) as [-> | Hne].
        -- exists id. right. exists fetched. cbn [tasks].
           destruct Hf as [H | [r H]]; rewrite Et in H;
             [injection H as <- | discriminate].
           apply lookup_insert_eq.
        -- exists f. refine (fetching_ext p _ f filePath' _ Hf). cbn [tasks].
           now apply lookup_insert_ne.
    + apply consistent_finish; [exact Hc | now left].
  - cbn [callIds omap step app].
    destruct (tasks p !! id) as [[| | filePath fetched | |] |] eqn:Et;
      try exact Hc.
    unfold afterFetchDescriptions. apply consistent_finish; [exact Hc |].
    right. eauto.
Qed.

Lemma callIds_cons st schedule :
  callIds (st :: schedule) = callIds [st] ++ callIds schedule.
Proof. unfold callIds. cbn [omap]. now destruct st. Qed.

Lemma consistent_run schedule : forall ids p,
  consistent ids p -> NoDup (callIds schedule) ->
  (forall id, id ∈ callIds schedule -> id ∉ ids) ->
  exists ids', consistent ids' (run schedule p).
Proof.
  induction schedule as [| st schedule IH]; intros ids p Hc Hnd Hfresh;
    [now exists ids |].
  rewrite callIds_cons in Hnd, Hfresh.
  apply NoDup_app in Hnd as (_ & Hdisj & Hnd).
  unfold run. cbn [foldl]. apply (IH (callIds [st] ++ ids)).
  - apply consistent_step; [exact Hc |].
    intros id Hid. apply Hfresh. apply elem_of_app. now left.
  - exact Hnd.
  - intros id Hid. rewrite elem_of_app. intros [Hst | Hids].
    + now apply (Hdisj id).
    + apply (Hfresh id); [| exact Hids]. apply elem_of_app. now right.
Qed.

Lemma consistent_idle p : idle p -> consistent [] p.
Proof.
  intros (Ht & Hp & Hw). unfold consistent. rewrite Ht, Hp, Hw.
  repeat split.
  - intros id t. now rewrite lookup_empty.
  - intros id f. now rewrite lookup_empty.
  - intros f l id. now rewrite lookup_empty.
  - intros f l. now rewrite lookup_empty.
  - intros f Hf. now apply elem_of_empty in Hf.
Qed.

(** X21: no call of [getBlame] is left waiting for nothing.  Start from a
    provider on which no call has been made and let calls, each under an
    id of its own, and the returns of the awaited operations come in any
    order.  A call that is waiting on a callback then always has a fetch
    of its path under way, and whichever such fetch ends, by [annotate]
    throwing or by [fetchDescriptions] returning, resolves the waiting
    call with the value the fetching call itself gets. *)
Theorem waiting_call_is_served p0 schedule id filePath :
  idle p0 ->
  NoDup (callIds schedule) ->
  tasks (run schedule p0) !! id = Some (AtCallback filePath) ->
  (exists f, fetching (run schedule p0) f filePath)
  /\ forall f st,
       completes (run schedule p0) f filePath st ->
       exists value,
         observed (step (run schedule p0) st) id = Some value
         /\ observed (step (run schedule p0) st) f = Some value.
Proof.
  intros Hidle Hnd Hid.
  destruct (consistent_run schedule [] p0 (consistent_idle _ Hidle) Hnd)
    as (ids & Hknown & Hreg & Hwait & Hpend & Hfetch).
  { intros i _ Hi. now apply elem_of_nil in Hi. }
  set (p := run schedule p0) in *.
  destruct (Hreg _ _ Hid) as (l & El & Hil).
  split; [eauto |].
  intros f st Hst.
  assert (Hne : id <> f).
  { intros ->. destruct Hst as [[H _] | (r & d & now & H & _)]; congruence. }
  assert (Hboth : forall value c d,
             observed (finish f filePath value c d p) id = Some value
             /\ observed (finish f filePath value c d p) f = Some value).
  { intros value c d. unfold observed. rewrite !finish_tasks.
    destruct (decide (id = f)); [contradiction |].
    destruct (decide (f = f)); [| contradiction].
    rewrite El. cbn [default].
    now rewrite bool_decide_eq_true_2 by assumption. }
  destruct Hst as [[Hf [e ->]] | (r & d & now & Hf & ->)];
    unfold step; rewrite Hf.
  - exists None. apply Hboth.
  - unfold afterFetchDescriptions. eexists. apply Hboth.
Qed.

Lemma waiting_call_is_served_witness :
  (exists f, fetching (run BlameDemo.joining initial) f "a.md")
  /\ forall f st,
       completes (run BlameDemo.joining initial) f "a.md" st ->
       exists value,
         observed (step (run BlameDemo.joining initial) st) 2 = Some value
         /\ observed (step (run BlameDemo.joining initial) st) f = Some value.
Proof.
  apply (waiting_call_is_served initial BlameDemo.joining 2 "a.md").
  - repeat split.
  - vm_compute. repeat constructor; rewrite ?elem_of_cons, ?elem_of_nil;
      intuition discriminate.
  - reflexivity.
Defined.

End blame_cache.

(** * Further properties of the annotate parser and of the plugin caches *)

Lemma parseLine_lineNumber line lineNumber bl :
  Annotate.parseLine line lineNumber = Some bl -> bl_lineNumber bl = lineNumber.
Proof.
  unfold Annotate.parseLine.
  repeat match goal with
         | |- context [match Annotate.matched ?r ?l ?g with _ => _ end] =>
             destruct (Annotate.matched r l g)
         end;
    try discriminate; intros [= <-]; reflexivity.
Qed.

(** X22: the lines [annotate] returns are numbered 1, 2, 3, ... without a
    gap, in the order of the output, whatever lines of the output were
    skipped (blank lines, depot headers, lines no pattern matches); there
    are at most as many of them as the output has lines. *)
Theorem annotate_numbers_are_consecutive output :
  map bl_lineNumber (Annotate.parseOutput output)
  = seq 1 (length (Annotate.parseOutput output))
  /\ (length (Annotate.parseOutput output)
      <= length (JS.split JS.LF (JS.remove_char JS.CR output)))%nat.
Proof.
  unfold Annotate.parseOutput.
  generalize (JS.split JS.LF (JS.remove_char JS.CR output)) 0%nat.
  intros outputLines.
  induction outputLines as [| line rest IH]; intros n; [split; reflexivity |].
  cbn [Annotate.parseLines length].
  destruct (negb (JS.truthy line) || String.eqb (JS.trim line) "");
    [destruct (IH n); split; [assumption | lia] |].
  destruct (JS.startsWith line "//");
    [destruct (IH n); split; [assumption | lia] |].
  destruct (Annotate.parseLine line (S n)) as [bl |] eqn:Hbl.
  - destruct (IH (S n)) as [Hn Hl]. split; [| cbn [length]; lia].
    cbn [map length seq]. f_equal; [| exact Hn].
    now apply parseLine_lineNumber in Hbl.
  - destruct (IH n); split; [assumption | lia].
Qed.

(** An unmatched line in the middle takes no number. *)
Example annotate_skips_unmatched :
  map bl_lineNumber
    (Annotate.parseOutput
       (Demo.lines ["//depot/a.md - edit change 7"; "7: joe 2024/01/15 one";
                    "no changelist here"; ""; "8: ann 2024/01/16 two"]))
  = [1; 2]%nat.
Proof. vm_compute. reflexivity. Qed.

(** X23: a path is found in the cache of tracked files under any spelling
    of its letter case and of its separators: it is enough that a cached
    path, lowered, equals the path with forward slashes, lowered. *)
Theorem isFileInDepotCache_any_spelling s filePath cachedPath :
  cachedPath ∈ cachedDepotFiles s ->
  JS.toLowerCase cachedPath = spelled filePath ->
  Plugin.isFileInDepotCache s filePath = true.
Proof.
  intros Hin Heq. unfold Plugin.isFileInDepotCache.
  destruct (bool_decide (filePath ∈ _)); [reflexivity |].
  destruct (bool_decide (JS.unbackslash filePath ∈ _)); [reflexivity |].
  apply existsb_exists. exists cachedPath. split.
  - apply list_elem_of_In, elem_of_elements, Hin.
  - apply String.eqb_eq. exact Heq.
Qed.

Lemma isFileInDepotCache_any_spelling_witness :
  Plugin.isFileInDepotCache
    (set_cachedDepotFiles {[ "notes/a.md" ]} Demo.state)
    ("Notes" +:+ String JS.backslash "A.MD") = true.
Proof.
  apply (isFileInDepotCache_any_spelling
           (set_cachedDepotFiles {[ "notes/a.md" ]} Demo.state)
           ("Notes" +:+ String JS.backslash "A.MD") "notes/a.md").
  - vm_compute. reflexivity.
  - reflexivity.
Defined.

Lemma length_append a b :
  String.length (a +:+ b) = (String.length a + String.length b)%nat.
Proof.
  induction a as [| x a IH]; [reflexivity |].
  rewrite append_cons. cbn [String.length]. now rewrite IH.
Qed.

Lemma drop_append a b : JS.drop (String.length a) (a +:+ b) = b.
Proof.
  induction a as [| x a IH]; [now destruct b |].
  rewrite append_cons. exact IH.
Qed.

Lemma endsWith_append a b : JS.endsWith (a +:+ b) b = true.
Proof.
  unfold JS.endsWith. rewrite length_append.
  replace (String.length a + String.length b - String.length b)%nat
    with (String.length a) by lia.
  rewrite drop_append, String.eqb_refl, andb_true_r.
  apply Nat.leb_le. lia.
Qed.

(** X24: a file counts as opened as soon as its path ends with a slash
    and the path of an opened file, or the other way round, both taken
    with forward slashes and in lower case.  A modification of such a
    file is let through by [handleFileModify]: nothing is restored and
    nothing is shown, whether or not the file itself is opened. *)
Theorem handleFileModify_opened_by_suffix E s file opened dir :
  opened ∈ cachedOpenedFiles s ->
  spelled (path file) = dir +:+ "/" +:+ spelled (fs_vaultPath opened)
  \/ spelled (fs_vaultPath opened) = dir +:+ "/" +:+ spelled (path file) ->
  Plugin.isFileOpenedInCache s (path file) = true
  /\ Plugin.handleFileModify E file s = (Ok tt, s).
Proof.
  intros Hin Hsuffix.
  assert (Hopen : Plugin.isFileOpenedInCache s (path file) = true).
  { unfold Plugin.isFileOpenedInCache. apply existsb_exists. exists opened.
    split; [now apply list_elem_of_In |].
    fold (spelled (fs_vaultPath opened)). fold (spelled (path file)).
    destruct Hsuffix as [-> | ->].
    - rewrite endsWith_append. now rewrite orb_true_r.
    - rewrite endsWith_append. now rewrite orb_true_r. }
  split; [exact Hopen |].
  unfold Plugin.handleFileModify, bind, get_state, ret. rewrite Hopen.
  destruct (isRevertingFile s || isResolvingMerge s); [reflexivity |].
  now destruct (negb (Plugin.isFileInDepotCache s (path file))).
Qed.

Lemma handleFileModify_opened_by_suffix_witness :
  Plugin.isFileOpenedInCache
    (set_cachedOpenedFiles [openedTopLevel] Demo.state) (path Demo.file) = true
  /\ Plugin.handleFileModify Demo.env Demo.file
       (set_cachedOpenedFiles [openedTopLevel] Demo.state)
     = (Ok tt, set_cachedOpenedFiles [openedTopLevel] Demo.state).
Proof.
  apply (handleFileModify_opened_by_suffix Demo.env
           (set_cachedOpenedFiles [openedTopLevel] Demo.state)
           Demo.file openedTopLevel "notes").
  - apply elem_of_cons. left. reflexivity.
  - left. reflexivity.
Defined.

(** ** The description of a changelist *)

Lemma trimEnd_idempotent s : JS.trimEnd (JS.trimEnd s) = JS.trimEnd s.
Proof.
  induction s as [| a s IH]; [reflexivity |]. cbn [JS.trimEnd].
  destruct (JS.is_space a && String.eqb (JS.trimEnd s) "") eqn:Hc;
    [reflexivity |].
  cbn [JS.trimEnd]. now rewrite IH, Hc.
Qed.

Lemma trimStart_head s :
  JS.trimStart s = ""
  \/ exists a r, JS.trimStart s = String a r /\ JS.is_space a = false.
Proof.
  induction s as [| a s IH]; [now left |]. cbn [JS.trimStart].
  destruct (JS.is_space a) eqn:Ha; [exact IH | right; eauto].
Qed.

Lemma trim_idempotent s : JS.trim (JS.trim s) = JS.trim s.
Proof.
  unfold JS.trim. destruct (trimStart_head s) as [-> | (a & r & -> & Ha)];
    [reflexivity |].
  cbn [JS.trimEnd]. rewrite Ha. cbn [andb JS.trimStart]. rewrite Ha.
  cbn [JS.trimEnd]. rewrite Ha. cbn [andb]. now rewrite trimEnd_idempotent.
Qed.

(** X25: [getChangelistDescription] never throws, whatever the tool does:
    it returns a string without white space at either end, which is empty
    when the describe query throws, and it runs nothing but that one
    query. *)
Theorem getChangelistDescription_total E changelist s :
  exists description,
    P4Manager.getChangelistDescription E changelist s
    = (Ok description, snd (P4Manager.runP4Json E (describeArgs changelist) s))
    /\ JS.trim description = description
    /\ (forall message,
          fst (P4Manager.runP4Json E (describeArgs changelist) s) = Err message ->
          description = "").
Proof.
  unfold P4Manager.getChangelistDescription, try_catch, bind, ret.
  fold (describeArgs changelist).
  destruct (P4Manager.runP4Json E (describeArgs changelist) s)
    as [[results | e] s'] eqn:Hrun; cbn [fst snd].
  - destruct results as [| first rest].
    + exists "". repeat split.
    + destruct (JS.truthy_opt (first !! "desc")).
      * eexists. split; [reflexivity |]. split; [apply trim_idempotent |].
        intros m. discriminate.
      * exists "". repeat split.
  - exists "". repeat split.
Qed.
